(** * Gas metering (store/types/gas.go)

    A shallow embedding of the gas meter of the store layer: the bounded
    meter [basicGasMeter], the unbounded meter [infiniteGasMeter], the
    [GasMeter] interface they both implement, and the two cost tables.

    Conventions.
    - [Gas] is Go's [uint64]: a [Z] in the range [0 .. MaxUint64]; every
      arithmetic operation of the source is written with its wrap-around
      ([wrap64]).
    - A Go method with a pointer receiver mutates the meter and may panic
      after having mutated it.  A method [func (g *T) m(...)] is embedded as
      a function returning the meter as the call leaves it together with
      the payload of the panic, if any ([Exec]).
    - [GasReport] is Go's [map[string]Gas]; a nil map is [None]. *)

From Stdlib Require Import ZArith Lia List Ascii.
From stdpp Require Import base option gmap strings pretty.
Import ListNotations.

Open Scope Z_scope.

(** ** Unsigned 64-bit quantities *)

Abbreviation Gas := Z (only parsing).

(** [GasReport]: the fine grained gas cost breakdown, [map[string]Gas]. *)
Abbreviation GasReport := (gmap string Z) (only parsing).

Definition MaxUint64 : Z := 18446744073709551615.

Definition wrap64 (z : Z) : Z := z mod 2 ^ 64.

Definition is_uint64 (z : Z) : Prop := 0 <= z <= MaxUint64.

(** ** Gas consumption descriptors *)

Definition GasIterNextCostFlatDesc : string := "IterNextFlat".
Definition GasValuePerByteDesc : string := "ValuePerByte".
Definition GasWritePerByteDesc : string := "WritePerByte".
Definition GasReadPerByteDesc : string := "ReadPerByte".
Definition GasWriteCostFlatDesc : string := "WriteFlat".
Definition GasReadCostFlatDesc : string := "ReadFlat".
Definition GasHasDesc : string := "Has".
Definition GasDeleteDesc : string := "Delete".

(** ** Panic payloads

    The three error structs of the source, each carrying its [Descriptor],
    and the run-time panic of Go on an assignment to an entry of a nil
    map. *)

Inductive Panic : Type :=
| ErrorNegativeGasConsumed (Descriptor : string)
| ErrorOutOfGas (Descriptor : string)
| ErrorGasOverflow (Descriptor : string)
| NilMapAssignment.

(** The meter as the call leaves it, and the panic it raised (if any). *)
Definition Exec (M : Type) : Type := (M * option Panic)%type.

Definition returns {M : Type} (g : M) : Exec M := (g, None).
Definition panic {M : Type} (g : M) (p : Panic) : Exec M := (g, Some p).

(** ** Reading and updating a GasReport *)

(** [report[descriptor]]: a missing key reads as the zero value. *)
Definition report_get (r : GasReport) (descriptor : string) : Gas :=
  default 0 (r !! descriptor).

(** [report[descriptor] += amount] *)
Definition report_add (r : GasReport) (descriptor : string) (amount : Gas)
  : GasReport :=
  <[descriptor := wrap64 (report_get r descriptor + amount)]> r.

(** [report[descriptor] -= amount] *)
Definition report_sub (r : GasReport) (descriptor : string) (amount : Gas)
  : GasReport :=
  <[descriptor := wrap64 (report_get r descriptor - amount)]> r.

(** ** addUint64Overflow *)

Definition addUint64Overflow (a b : Z) : Z * bool :=
  if wrap64 (MaxUint64 - a) <? b then (0, true)
  else (wrap64 (a + b), false).

(** ** The bounded meter *)

Module basicGasMeter.

Record t : Type := mk {
  limit : Gas;
  consumed : Gas;
  costBreakdownEnabled : bool;
  report : option GasReport
}.

Definition set_consumed (c : Gas) (g : t) : t :=
  {| limit := limit g; consumed := c;
     costBreakdownEnabled := costBreakdownEnabled g; report := report g |}.

Definition set_report (r : GasReport) (g : t) : t :=
  {| limit := limit g; consumed := consumed g;
     costBreakdownEnabled := costBreakdownEnabled g; report := Some r |}.

Definition GasConsumed (g : t) : Gas := consumed g.

Definition Limit (g : t) : Gas := limit g.

Definition IsPastLimit (g : t) : bool := consumed g >? limit g.

Definition IsOutOfGas (g : t) : bool := consumed g >=? limit g.

Definition GasConsumedToLimit (g : t) : Gas :=
  if IsPastLimit g then limit g else consumed g.

Definition ConsumeGas (g : t) (amount : Gas) (descriptor : string) : Exec t :=
  let '(sum, overflow) := addUint64Overflow (consumed g) amount in
  let g := set_consumed sum g in
  if overflow then
    let g := set_consumed MaxUint64 g in
    panic g (ErrorGasOverflow descriptor)
  else if consumed g >? limit g then
    panic g (ErrorOutOfGas descriptor)
  else if costBreakdownEnabled g then
    match report g with
    | Some r => returns (set_report (report_add r descriptor amount) g)
    | None => panic g NilMapAssignment
    end
  else returns g.

Definition RefundGas (g : t) (amount : Gas) (descriptor : string) : Exec t :=
  if consumed g <? amount then
    panic g (ErrorNegativeGasConsumed descriptor)
  else
    let g := set_consumed (wrap64 (consumed g - amount)) g in
    if costBreakdownEnabled g then
      match report g with
      | Some r => returns (set_report (report_sub r descriptor amount) g)
      | None => panic g NilMapAssignment
      end
    else returns g.

Definition Report (g : t) : option GasReport := report g.

(** [String] formats [limit] and [consumed] for display; it is
    [basicGasMeter_String] below. *)

(** Breakdown tracking is only switched on together with a map. *)
Definition wf (g : t) : Prop :=
  costBreakdownEnabled g = true -> report g <> None.

End basicGasMeter.

(** ** The unbounded meter *)

Module infiniteGasMeter.

Record t : Type := mk { consumed : Gas }.

Definition GasConsumed (g : t) : Gas := consumed g.

Definition GasConsumedToLimit (g : t) : Gas := consumed g.

Definition Limit (g : t) : Gas := 0.

Definition ConsumeGas (g : t) (amount : Gas) (descriptor : string) : Exec t :=
  let '(sum, overflow) := addUint64Overflow (consumed g) amount in
  let g := mk sum in
  if overflow then panic g (ErrorGasOverflow descriptor)
  else returns g.

Definition RefundGas (g : t) (amount : Gas) (descriptor : string) : Exec t :=
  if consumed g <? amount then
    panic g (ErrorNegativeGasConsumed descriptor)
  else returns (mk (wrap64 (consumed g - amount))).

Definition IsPastLimit (g : t) : bool := false.

Definition IsOutOfGas (g : t) : bool := false.

Definition Report (g : t) : option GasReport := None.

End infiniteGasMeter.

(** ** The GasMeter interface

    An interface value is one of its two implementations; a method call
    dispatches on the dynamic type. *)

Inductive GasMeter : Type :=
| Basic (g : basicGasMeter.t)
| Infinite (g : infiniteGasMeter.t).

Definition lift {A B : Type} (f : A -> B) (e : Exec A) : Exec B :=
  (f (fst e), snd e).

Definition GasConsumed (m : GasMeter) : Gas :=
  match m with
  | Basic g => basicGasMeter.GasConsumed g
  | Infinite g => infiniteGasMeter.GasConsumed g
  end.

Definition GasConsumedToLimit (m : GasMeter) : Gas :=
  match m with
  | Basic g => basicGasMeter.GasConsumedToLimit g
  | Infinite g => infiniteGasMeter.GasConsumedToLimit g
  end.

Definition Limit (m : GasMeter) : Gas :=
  match m with
  | Basic g => basicGasMeter.Limit g
  | Infinite g => infiniteGasMeter.Limit g
  end.

Definition ConsumeGas (m : GasMeter) (amount : Gas) (descriptor : string)
  : Exec GasMeter :=
  match m with
  | Basic g => lift Basic (basicGasMeter.ConsumeGas g amount descriptor)
  | Infinite g => lift Infinite (infiniteGasMeter.ConsumeGas g amount descriptor)
  end.

Definition RefundGas (m : GasMeter) (amount : Gas) (descriptor : string)
  : Exec GasMeter :=
  match m with
  | Basic g => lift Basic (basicGasMeter.RefundGas g amount descriptor)
  | Infinite g => lift Infinite (infiniteGasMeter.RefundGas g amount descriptor)
  end.

Definition IsPastLimit (m : GasMeter) : bool :=
  match m with
  | Basic g => basicGasMeter.IsPastLimit g
  | Infinite g => infiniteGasMeter.IsPastLimit g
  end.

Definition IsOutOfGas (m : GasMeter) : bool :=
  match m with
  | Basic g => basicGasMeter.IsOutOfGas g
  | Infinite g => infiniteGasMeter.IsOutOfGas g
  end.

Definition Report (m : GasMeter) : option GasReport :=
  match m with
  | Basic g => basicGasMeter.Report g
  | Infinite g => infiniteGasMeter.Report g
  end.

(** ** Constructors *)

Definition NewGasMeter (limit : Gas) (costBreakdownEnabled : bool) : GasMeter :=
  if costBreakdownEnabled then
    Basic (basicGasMeter.mk limit 0 true (Some ∅))
  else
    Basic (basicGasMeter.mk limit 0 false None).

Definition NewInfiniteGasMeter : GasMeter :=
  Infinite (infiniteGasMeter.mk 0).

(** ** GasConfig *)

Record GasConfig : Type := {
  HasCost : Gas;
  DeleteCost : Gas;
  ReadCostFlat : Gas;
  ReadCostPerByte : Gas;
  WriteCostFlat : Gas;
  WriteCostPerByte : Gas;
  IterNextCostFlat : Gas
}.

Definition KVGasConfig : GasConfig := {|
  HasCost := 1000;
  DeleteCost := 1000;
  ReadCostFlat := 1000;
  ReadCostPerByte := 3;
  WriteCostFlat := 2000;
  WriteCostPerByte := 30;
  IterNextCostFlat := 30
|}.

Definition TransientGasConfig : GasConfig := {|
  HasCost := 100;
  DeleteCost := 100;
  ReadCostFlat := 100;
  ReadCostPerByte := 0;
  WriteCostFlat := 200;
  WriteCostPerByte := 3;
  IterNextCostFlat := 3
|}.

(** The seven prices of a table, in the order of the fields. *)
Definition GasConfig_table (c : GasConfig) : Z * Z * Z * Z * Z * Z * Z :=
  (HasCost c, DeleteCost c, ReadCostFlat c, ReadCostPerByte c,
   WriteCostFlat c, WriteCostPerByte c, IterNextCostFlat c).

(** ** A unit of work: calls issued in order

    The caller charges and refunds in sequence; the first panic unwinds the
    unit of work, so the calls after it are not made. *)

Inductive Call : Type :=
| CallConsumeGas (amount : Gas) (descriptor : string)
| CallRefundGas (amount : Gas) (descriptor : string).

Definition call (m : GasMeter) (c : Call) : Exec GasMeter :=
  match c with
  | CallConsumeGas amount descriptor => ConsumeGas m amount descriptor
  | CallRefundGas amount descriptor => RefundGas m amount descriptor
  end.

Fixpoint run (m : GasMeter) (calls : list Call) : Exec GasMeter :=
  match calls with
  | [] => returns m
  | c :: rest =>
      match call m c with
      | (m', None) => run m' rest
      | (m', Some p) => panic m' p
      end
  end.

(** The sum of the amounts charged and of the amounts refunded. *)
Fixpoint charged (calls : list Call) : Z :=
  match calls with
  | [] => 0
  | CallConsumeGas amount _ :: rest => amount + charged rest
  | CallRefundGas _ _ :: rest => charged rest
  end.

Fixpoint refunded (calls : list Call) : Z :=
  match calls with
  | [] => 0
  | CallConsumeGas _ _ :: rest => refunded rest
  | CallRefundGas amount _ :: rest => amount + refunded rest
  end.

(** [within_limit L c calls]: started at the running total [c], no charge of
    [calls] overflows [uint64] or takes the running total of charges minus
    refunds above [L], and no refund is larger than the running total at the
    time it is made. *)
Fixpoint within_limit (L c : Z) (calls : list Call) : Prop :=
  match calls with
  | [] => True
  | CallConsumeGas amount _ :: rest =>
      is_uint64 amount /\ c + amount <= MaxUint64 /\ c + amount <= L /\
      within_limit L (c + amount) rest
  | CallRefundGas amount _ :: rest =>
      is_uint64 amount /\ amount <= c /\ within_limit L (c - amount) rest
  end.



(** The sum of the amounts charged, and of the amounts refunded, under one
    descriptor. *)
Fixpoint charged_under (d : string) (calls : list Call) : Z :=
  match calls with
  | [] => 0
  | CallConsumeGas amount descriptor :: rest =>
      (if decide (descriptor = d) then amount else 0) + charged_under d rest
  | CallRefundGas _ _ :: rest => charged_under d rest
  end.

Fixpoint refunded_under (d : string) (calls : list Call) : Z :=
  match calls with
  | [] => 0
  | CallConsumeGas _ _ :: rest => refunded_under d rest
  | CallRefundGas amount descriptor :: rest =>
      (if decide (descriptor = d) then amount else 0) + refunded_under d rest
  end.

(** The three error structs of the source, as opposed to a run-time panic
    of Go itself. *)
Definition gas_error (p : Panic) : Prop :=
  match p with
  | ErrorNegativeGasConsumed _ | ErrorOutOfGas _ | ErrorGasOverflow _ => True
  | NilMapAssignment => False
  end.

(** A meter whose breakdown tracking, if switched on, has its map. *)
Definition GasMeter_wf (m : GasMeter) : Prop :=
  match m with
  | Basic g => basicGasMeter.wf g
  | Infinite _ => True
  end.

(** A report all of whose readings are [uint64]. *)
Definition report_uint64 (r : GasReport) : Prop :=
  forall d, is_uint64 (report_get r d).

(** The sequences of calls that only charge. *)
Definition charges_only (calls : list Call) : Prop :=
  Forall (fun c => match c with
                   | CallConsumeGas _ _ => True
                   | CallRefundGas _ _ => False
                   end) calls.

(** The sum of the entries of a report. *)
Definition report_total (r : GasReport) : Z :=
  map_fold (fun _ v acc => v + acc) 0 r.

(** ** String

    [fmt.Sprintf] with the verb [%d] prints a [uint64] in decimal; [pretty]
    does so for a [Z]. *)

Definition newline : string := String "010"%char EmptyString.

Definition basicGasMeter_String (g : basicGasMeter.t) : string :=
  "BasicGasMeter:" +:+ newline +:+ "  limit: "
    +:+ pretty (basicGasMeter.limit g)
    +:+ newline +:+ "  consumed: " +:+ pretty (basicGasMeter.consumed g).

Definition infiniteGasMeter_String (g : infiniteGasMeter.t) : string :=
  "InfiniteGasMeter:" +:+ newline +:+ "  consumed: "
    +:+ pretty (infiniteGasMeter.consumed g).

Definition GasMeter_String (m : GasMeter) : string :=
  match m with
  | Basic g => basicGasMeter_String g
  | Infinite g => infiniteGasMeter_String g
  end.

(** The strings without a line break. *)
Fixpoint one_line (s : string) : Prop :=
  match s with
  | EmptyString => True
  | String c rest => c <> "010"%char /\ one_line rest
  end.

(** * Properties *)

(** ** Arithmetic of [uint64] *)

Lemma MaxUint64_eq : MaxUint64 = 2 ^ 64 - 1.
Proof. reflexivity. Qed.

Lemma wrap64_id (z : Z) : is_uint64 z -> wrap64 z = z.
Proof.
  unfold is_uint64, wrap64. rewrite MaxUint64_eq. intros Hz.
  apply Z.mod_small. lia.
Qed.

Lemma wrap64_borrow (z : Z) : - 2 ^ 64 <= z < 0 -> wrap64 z = z + 2 ^ 64.
Proof.
  intros Hz. unfold wrap64.
  replace z with (z + 2 ^ 64 + (-1) * 2 ^ 64) at 1 by lia.
  rewrite Z.mod_add by lia. apply Z.mod_small. lia.
Qed.

Lemma addUint64Overflow_fits (a b : Z) :
  is_uint64 a -> is_uint64 b -> a + b <= MaxUint64 ->
  addUint64Overflow a b = (a + b, false).
Proof.
  unfold is_uint64. intros Ha Hb Hab. unfold addUint64Overflow.
  rewrite (wrap64_id (MaxUint64 - a)) by (unfold is_uint64; lia).
  destruct (Z.ltb_spec (MaxUint64 - a) b) as [Hlt | Hge]; [lia |].
  rewrite wrap64_id by (unfold is_uint64; lia). reflexivity.
Qed.

Lemma addUint64Overflow_wraps (a b : Z) :
  is_uint64 a -> MaxUint64 < a + b ->
  addUint64Overflow a b = (0, true).
Proof.
  unfold is_uint64. intros Ha Hab. unfold addUint64Overflow.
  rewrite (wrap64_id (MaxUint64 - a)) by (unfold is_uint64; lia).
  destruct (Z.ltb_spec (MaxUint64 - a) b) as [Hlt | Hge]; [reflexivity | lia].
Qed.

(** The flag of [addUint64Overflow] is raised exactly when the sum leaves
    the [uint64] range. *)
Lemma addUint64Overflow_flag (a b : Z) :
  is_uint64 a ->
  snd (addUint64Overflow a b) = true <-> MaxUint64 < a + b.
Proof.
  unfold is_uint64. intros Ha. unfold addUint64Overflow.
  rewrite (wrap64_id (MaxUint64 - a)) by (unfold is_uint64; lia).
  destruct (Z.ltb_spec (MaxUint64 - a) b) as [Hlt | Hge]; simpl.
  - split; [lia | reflexivity].
  - split; [discriminate | lia].
Qed.

(** ** The bounded meter: charging *)

(** C2.  On a bounded meter, a charge whose sum with [consumed] stays in the
    [uint64] range but is strictly above the limit panics with
    [ErrorOutOfGas] carrying the descriptor.  The charge is applied all the
    same: afterwards [GasConsumed] is the over-limit total, and
    [GasConsumedToLimit] is exactly the limit. *)
Theorem ConsumeGas_out_of_gas
    (g : basicGasMeter.t) (amount : Z) (descriptor : string) :
  is_uint64 (basicGasMeter.consumed g) ->
  is_uint64 amount ->
  basicGasMeter.consumed g + amount <= MaxUint64 ->
  basicGasMeter.limit g < basicGasMeter.consumed g + amount ->
  exists g',
    basicGasMeter.ConsumeGas g amount descriptor
      = (g', Some (ErrorOutOfGas descriptor)) /\
    basicGasMeter.GasConsumed g' = basicGasMeter.consumed g + amount /\
    basicGasMeter.Limit g' = basicGasMeter.limit g /\
    basicGasMeter.GasConsumedToLimit g' = basicGasMeter.limit g.
Proof.
  intros Hc Ha Hfit Hover.
  unfold basicGasMeter.ConsumeGas.
  rewrite (addUint64Overflow_fits _ _ Hc Ha Hfit). cbn.
  destruct (Z.gtb_spec (basicGasMeter.consumed g + amount)
              (basicGasMeter.limit g)) as [Hgt | Hle]; [| lia].
  eexists. split; [reflexivity |].
  unfold basicGasMeter.GasConsumed, basicGasMeter.Limit,
    basicGasMeter.GasConsumedToLimit, basicGasMeter.IsPastLimit. cbn.
  repeat split.
  destruct (Z.gtb_spec (basicGasMeter.consumed g + amount)
              (basicGasMeter.limit g)); [reflexivity | lia].
Qed.

Lemma ConsumeGas_out_of_gas_witness :
  exists g',
    basicGasMeter.ConsumeGas (basicGasMeter.mk 10 7 false None) 5 "ReadFlat"
      = (g', Some (ErrorOutOfGas "ReadFlat")) /\
    basicGasMeter.GasConsumed g' = 7 + 5 /\
    basicGasMeter.Limit g' = 10 /\
    basicGasMeter.GasConsumedToLimit g' = 10.
Proof.
  apply (ConsumeGas_out_of_gas (basicGasMeter.mk 10 7 false None) 5 "ReadFlat");
    unfold is_uint64, MaxUint64; simpl; lia.
Defined.

(** C3.  On a bounded meter, a charge whose sum with [consumed] leaves the
    [uint64] range panics with [ErrorGasOverflow] carrying the descriptor,
    having first set [consumed] to the largest [uint64]: afterwards
    [GasConsumed] is [2^64 - 1], not a wrapped-around small number. *)
Theorem ConsumeGas_overflow
    (g : basicGasMeter.t) (amount : Z) (descriptor : string) :
  is_uint64 (basicGasMeter.consumed g) ->
  is_uint64 amount ->
  MaxUint64 < basicGasMeter.consumed g + amount ->
  exists g',
    basicGasMeter.ConsumeGas g amount descriptor
      = (g', Some (ErrorGasOverflow descriptor)) /\
    basicGasMeter.GasConsumed g' = 2 ^ 64 - 1.
Proof.
  intros Hc _ Hover.
  unfold basicGasMeter.ConsumeGas.
  rewrite (addUint64Overflow_wraps _ _ Hc Hover). cbn.
  eexists. split; reflexivity.
Qed.

Lemma ConsumeGas_overflow_witness :
  exists g',
    basicGasMeter.ConsumeGas
      (basicGasMeter.mk 100 (MaxUint64 - 1) false None) 5 "WriteFlat"
      = (g', Some (ErrorGasOverflow "WriteFlat")) /\
    basicGasMeter.GasConsumed g' = 2 ^ 64 - 1.
Proof.
  apply (ConsumeGas_overflow
           (basicGasMeter.mk 100 (MaxUint64 - 1) false None) 5 "WriteFlat");
    unfold is_uint64, MaxUint64; simpl; lia.
Defined.

(** ** The bounded meter: the two limit tests *)

(** C5.  On a bounded meter [IsOutOfGas] is true exactly when
    [consumed >= limit] and [IsPastLimit] exactly when [consumed > limit];
    a meter whose [consumed] equals its limit is out of gas and not past
    the limit. *)
Theorem IsOutOfGas_IsPastLimit_spec (g : basicGasMeter.t) :
  (basicGasMeter.IsOutOfGas g = true
     <-> basicGasMeter.consumed g >= basicGasMeter.limit g) /\
  (basicGasMeter.IsPastLimit g = true
     <-> basicGasMeter.consumed g > basicGasMeter.limit g) /\
  (basicGasMeter.consumed g = basicGasMeter.limit g ->
     basicGasMeter.IsOutOfGas g = true /\
     basicGasMeter.IsPastLimit g = false).
Proof.
  unfold basicGasMeter.IsOutOfGas, basicGasMeter.IsPastLimit.
  destruct (Z.geb_spec (basicGasMeter.consumed g) (basicGasMeter.limit g));
    destruct (Z.gtb_spec (basicGasMeter.consumed g) (basicGasMeter.limit g));
    repeat split; intros; try lia; try discriminate.
Qed.

Lemma IsOutOfGas_IsPastLimit_at_limit :
  basicGasMeter.IsOutOfGas (basicGasMeter.mk 50 50 false None) = true /\
  basicGasMeter.IsPastLimit (basicGasMeter.mk 50 50 false None) = false.
Proof.
  apply (IsOutOfGas_IsPastLimit_spec (basicGasMeter.mk 50 50 false None)).
  reflexivity.
Defined.

(** ** The cost tables *)

(** C10.  [KVGasConfig] and [TransientGasConfig] are constants: the tables
    (HasCost, DeleteCost, ReadCostFlat, ReadCostPerByte, WriteCostFlat,
    WriteCostPerByte, IterNextCostFlat) = (1000, 1000, 1000, 3, 2000, 30, 30)
    and (100, 100, 100, 0, 200, 3, 3).  They take no argument, read no
    state and have no failing outcome. *)
Theorem GasConfig_tables :
  GasConfig_table KVGasConfig = (1000, 1000, 1000, 3, 2000, 30, 30) /\
  GasConfig_table TransientGasConfig = (100, 100, 100, 0, 200, 3, 3).
Proof. split; reflexivity. Qed.

(** ** The bounded meter: the report of a charge *)

(** A charge that panics, whatever the panic, leaves the report as it was. *)
Lemma ConsumeGas_panic_report
    (g g' : basicGasMeter.t) (amount : Z) (descriptor : string) (p : Panic) :
  basicGasMeter.ConsumeGas g amount descriptor = (g', Some p) ->
  basicGasMeter.report g' = basicGasMeter.report g.
Proof.
  destruct g as [l c enabled r]. unfold basicGasMeter.ConsumeGas. cbn.
  destruct (addUint64Overflow c amount) as [sum overflow].
  destruct overflow; cbn.
  - intros [= <- _]. reflexivity.
  - destruct (sum >? l); cbn.
    + intros [= <- _]. reflexivity.
    + destruct enabled; cbn; [| discriminate].
      destruct r; cbn; [discriminate |].
      intros [= <- _]. reflexivity.
Qed.

Lemma report_get_add (r : gmap string Z) (descriptor : string) (amount : Z) :
  report_get (report_add r descriptor amount) descriptor
  = wrap64 (report_get r descriptor + amount).
Proof.
  unfold report_add. unfold report_get at 1.
  rewrite lookup_insert_eq. reflexivity.
Qed.

Lemma report_get_sub (r : gmap string Z) (descriptor : string) (amount : Z) :
  report_get (report_sub r descriptor amount) descriptor
  = wrap64 (report_get r descriptor - amount).
Proof.
  unfold report_sub. unfold report_get at 1.
  rewrite lookup_insert_eq. reflexivity.
Qed.

(** C6.  On a bounded meter with breakdown tracking enabled, a charge that
    panics with [ErrorGasOverflow] or with [ErrorOutOfGas] leaves the
    report unchanged although the same call has updated [consumed]; the
    entry of the descriptor grows by the amount (in [uint64] arithmetic)
    only for a charge that passes both the overflow check and the limit
    check. *)
Theorem ConsumeGas_report_only_on_success
    (g : basicGasMeter.t) (r : gmap string Z)
    (amount : Z) (descriptor : string) :
  basicGasMeter.costBreakdownEnabled g = true ->
  basicGasMeter.report g = Some r ->
  is_uint64 (basicGasMeter.consumed g) ->
  is_uint64 amount ->
  (MaxUint64 < basicGasMeter.consumed g + amount ->
     exists g',
       basicGasMeter.ConsumeGas g amount descriptor
         = (g', Some (ErrorGasOverflow descriptor)) /\
       basicGasMeter.Report g' = Some r /\
       basicGasMeter.GasConsumed g' = MaxUint64) /\
  (basicGasMeter.consumed g + amount <= MaxUint64 ->
   basicGasMeter.limit g < basicGasMeter.consumed g + amount ->
     exists g',
       basicGasMeter.ConsumeGas g amount descriptor
         = (g', Some (ErrorOutOfGas descriptor)) /\
       basicGasMeter.Report g' = Some r /\
       basicGasMeter.GasConsumed g' = basicGasMeter.consumed g + amount) /\
  (basicGasMeter.consumed g + amount <= MaxUint64 ->
   basicGasMeter.consumed g + amount <= basicGasMeter.limit g ->
     exists g' r',
       basicGasMeter.ConsumeGas g amount descriptor = (g', None) /\
       basicGasMeter.Report g' = Some r' /\
       report_get r' descriptor = wrap64 (report_get r descriptor + amount) /\
       (forall d, d <> descriptor -> r' !! d = r !! d) /\
       basicGasMeter.GasConsumed g' = basicGasMeter.consumed g + amount).
Proof.
  intros Hen Hr Hc Ha.
  unfold basicGasMeter.ConsumeGas, basicGasMeter.Report,
    basicGasMeter.GasConsumed.
  repeat split.
  - intros Hover. rewrite (addUint64Overflow_wraps _ _ Hc Hover). cbn.
    eexists. repeat split. exact Hr.
  - intros Hfit Hlim. rewrite (addUint64Overflow_fits _ _ Hc Ha Hfit). cbn.
    destruct (Z.gtb_spec (basicGasMeter.consumed g + amount)
                (basicGasMeter.limit g)); [| lia].
    eexists. repeat split. exact Hr.
  - intros Hfit Hlim. rewrite (addUint64Overflow_fits _ _ Hc Ha Hfit). cbn.
    destruct (Z.gtb_spec (basicGasMeter.consumed g + amount)
                (basicGasMeter.limit g)); [lia |].
    rewrite Hen, Hr. cbn.
    eexists. exists (report_add r descriptor amount).
    repeat split.
    + apply report_get_add.
    + intros d Hd. unfold report_add. apply lookup_insert_ne. congruence.
Qed.

Lemma ConsumeGas_report_only_on_success_witness :
  exists g',
    basicGasMeter.ConsumeGas
      (basicGasMeter.mk 10 7 true (Some {["ReadFlat" := 7]})) 5 "ReadFlat"
      = (g', Some (ErrorOutOfGas "ReadFlat")) /\
    basicGasMeter.Report g' = Some {["ReadFlat" := 7]} /\
    basicGasMeter.GasConsumed g' = 7 + 5.
Proof.
  apply (ConsumeGas_report_only_on_success
           (basicGasMeter.mk 10 7 true (Some {["ReadFlat" := 7]}))
           {["ReadFlat" := 7]} 5 "ReadFlat");
    try reflexivity; unfold is_uint64, MaxUint64; simpl; lia.
Defined.

(** ** Refunds, on both meters *)

(** The guard of [RefundGas], for either implementation: the call panics
    with [ErrorNegativeGasConsumed] when the amount is above [consumed],
    and it has then touched nothing. *)
Lemma RefundGas_above_consumed
    (m : GasMeter) (amount : Z) (descriptor : string) :
  GasConsumed m < amount ->
  RefundGas m amount descriptor
  = (m, Some (ErrorNegativeGasConsumed descriptor)).
Proof.
  intros Hlt. destruct m as [g | g]; cbn in *.
  - unfold basicGasMeter.RefundGas, basicGasMeter.GasConsumed in *.
    destruct (Z.ltb_spec (basicGasMeter.consumed g) amount); [| lia].
    reflexivity.
  - unfold infiniteGasMeter.RefundGas, infiniteGasMeter.GasConsumed in *.
    destruct (Z.ltb_spec (infiniteGasMeter.consumed g) amount); [| lia].
    reflexivity.
Qed.

(** A refund within [consumed] never panics with
    [ErrorNegativeGasConsumed]. *)
Lemma RefundGas_within_consumed
    (m : GasMeter) (amount : Z) (descriptor d : string) :
  amount <= GasConsumed m ->
  snd (RefundGas m amount descriptor) <> Some (ErrorNegativeGasConsumed d).
Proof.
  intros Hle. destruct m as [g | g]; cbn in *.
  - unfold basicGasMeter.RefundGas, basicGasMeter.GasConsumed in *.
    destruct (Z.ltb_spec (basicGasMeter.consumed g) amount); [lia |].
    destruct g as [l c enabled r]; cbn.
    destruct enabled; cbn; [| discriminate].
    destruct r; cbn; discriminate.
  - unfold infiniteGasMeter.RefundGas, infiniteGasMeter.GasConsumed in *.
    destruct (Z.ltb_spec (infiniteGasMeter.consumed g) amount); [lia |].
    cbn. discriminate.
Qed.

(** C7.  For both meters, [RefundGas amount descriptor] panics with
    [ErrorNegativeGasConsumed] if and only if [amount > consumed], and the
    payload then carries the descriptor; when [amount <= consumed] it
    lowers [consumed] by exactly [amount], and with breakdown tracking
    disabled (always so on the unbounded meter) it returns normally and
    changes nothing else. *)
Theorem RefundGas_spec (m : GasMeter) (amount : Z) (descriptor : string) :
  is_uint64 (GasConsumed m) ->
  is_uint64 amount ->
  ((exists d, snd (RefundGas m amount descriptor)
              = Some (ErrorNegativeGasConsumed d))
     <-> amount > GasConsumed m) /\
  (amount > GasConsumed m ->
     snd (RefundGas m amount descriptor)
     = Some (ErrorNegativeGasConsumed descriptor)) /\
  (amount <= GasConsumed m ->
     GasConsumed (fst (RefundGas m amount descriptor))
     = GasConsumed m - amount) /\
  (amount <= GasConsumed m ->
     match m with
     | Basic g =>
         basicGasMeter.costBreakdownEnabled g = false ->
         RefundGas m amount descriptor
         = (Basic (basicGasMeter.mk
                     (basicGasMeter.limit g)
                     (basicGasMeter.consumed g - amount)
                     false
                     (basicGasMeter.report g)), None)
     | Infinite g =>
         RefundGas m amount descriptor
         = (Infinite (infiniteGasMeter.mk
                        (infiniteGasMeter.consumed g - amount)), None)
     end).
Proof.
  intros Hc Ha.
  assert (Hsub : amount <= GasConsumed m ->
                 wrap64 (GasConsumed m - amount) = GasConsumed m - amount).
  { intros Hle. apply wrap64_id. unfold is_uint64 in *. lia. }
  split; [| split; [| split]].
  - split.
    + intros [d Hd].
      destruct (Z.le_gt_cases amount (GasConsumed m)) as [Hle | Hgt]; [| lia].
      exfalso. exact (RefundGas_within_consumed m amount descriptor d Hle Hd).
    + intros Hgt. exists descriptor.
      rewrite RefundGas_above_consumed by lia. reflexivity.
  - intros Hgt. rewrite RefundGas_above_consumed by lia. reflexivity.
  - intros Hle. specialize (Hsub Hle).
    destruct m as [g | g]; cbn in *.
    + unfold basicGasMeter.RefundGas, basicGasMeter.GasConsumed in *.
      destruct (Z.ltb_spec (basicGasMeter.consumed g) amount); [lia |].
      destruct g as [l c enabled r]; cbn in *.
      destruct enabled; cbn; [| exact Hsub].
      destruct r; cbn; exact Hsub.
    + unfold infiniteGasMeter.RefundGas, infiniteGasMeter.GasConsumed in *.
      destruct (Z.ltb_spec (infiniteGasMeter.consumed g) amount); [lia |].
      cbn. exact Hsub.
  - intros Hle. specialize (Hsub Hle).
    destruct m as [g | g]; cbn in *.
    + intros Hdis.
      unfold basicGasMeter.RefundGas, basicGasMeter.GasConsumed in *.
      destruct (Z.ltb_spec (basicGasMeter.consumed g) amount); [lia |].
      destruct g as [l c enabled r]; cbn in *. subst enabled. cbn.
      unfold lift, returns, basicGasMeter.set_consumed. cbn.
      rewrite Hsub. reflexivity.
    + unfold infiniteGasMeter.RefundGas, infiniteGasMeter.GasConsumed in *.
      destruct (Z.ltb_spec (infiniteGasMeter.consumed g) amount); [lia |].
      unfold lift, returns. cbn. rewrite Hsub. reflexivity.
Qed.

Lemma RefundGas_spec_witness :
  snd (RefundGas (NewGasMeter 100 false) 1 "Delete")
  = Some (ErrorNegativeGasConsumed "Delete") /\
  RefundGas (Infinite (infiniteGasMeter.mk 9)) 4 "Has"
  = (Infinite (infiniteGasMeter.mk (9 - 4)), None).
Proof.
  split.
  - apply (RefundGas_spec (NewGasMeter 100 false) 1 "Delete");
      unfold is_uint64, MaxUint64; cbn; lia.
  - apply (RefundGas_spec (Infinite (infiniteGasMeter.mk 9)) 4 "Has");
      unfold is_uint64, MaxUint64; cbn; lia.
Defined.

(** C9.  For both meters, a refund that panics with
    [ErrorNegativeGasConsumed] (the amount is above [consumed]) leaves the
    meter exactly as it was: [consumed] and, on a bounded meter, the whole
    report keep their values. *)
Theorem RefundGas_negative_atomic
    (m : GasMeter) (amount : Z) (descriptor : string) :
  GasConsumed m < amount ->
  snd (RefundGas m amount descriptor)
  = Some (ErrorNegativeGasConsumed descriptor) /\
  fst (RefundGas m amount descriptor) = m /\
  GasConsumed (fst (RefundGas m amount descriptor)) = GasConsumed m /\
  Report (fst (RefundGas m amount descriptor)) = Report m.
Proof.
  intros Hlt. rewrite (RefundGas_above_consumed m amount descriptor Hlt).
  cbn. repeat split.
Qed.

(** The same, read off the outcome of the call. *)
Lemma RefundGas_panic_atomic
    (m : GasMeter) (amount : Z) (descriptor d : string) :
  snd (RefundGas m amount descriptor) = Some (ErrorNegativeGasConsumed d) ->
  RefundGas m amount descriptor = (m, Some (ErrorNegativeGasConsumed d)).
Proof.
  intros Hp.
  destruct (Z.le_gt_cases amount (GasConsumed m)) as [Hle | Hgt].
  - exfalso. exact (RefundGas_within_consumed m amount descriptor d Hle Hp).
  - rewrite (RefundGas_above_consumed m amount descriptor) in * by lia.
    cbn in Hp. rewrite <- Hp. reflexivity.
Qed.

Lemma RefundGas_negative_atomic_witness :
  snd (RefundGas (Basic (basicGasMeter.mk 100 3 true (Some {["Has" := 3]})))
         4 "Has")
  = Some (ErrorNegativeGasConsumed "Has") /\
  fst (RefundGas (Basic (basicGasMeter.mk 100 3 true (Some {["Has" := 3]})))
         4 "Has")
  = Basic (basicGasMeter.mk 100 3 true (Some {["Has" := 3]})) /\
  GasConsumed
    (fst (RefundGas
            (Basic (basicGasMeter.mk 100 3 true (Some {["Has" := 3]})))
            4 "Has"))
  = 3 /\
  Report
    (fst (RefundGas
            (Basic (basicGasMeter.mk 100 3 true (Some {["Has" := 3]})))
            4 "Has"))
  = Some {["Has" := 3]}.
Proof.
  apply (RefundGas_negative_atomic
           (Basic (basicGasMeter.mk 100 3 true (Some {["Has" := 3]})))
           4 "Has").
  cbn. lia.
Defined.

(** ** The bounded meter: the report of a refund *)

(** C8.  On a bounded meter with breakdown tracking enabled, a refund that
    succeeds ([amount <= consumed]) for a descriptor whose report entry is
    strictly below the amount sets the entry to
    [(entry - amount) mod 2^64]: the call returns normally and the entry
    wraps around to [entry - amount + 2^64]; it is neither kept at zero
    nor refused. *)
Theorem RefundGas_report_wraps
    (g : basicGasMeter.t) (r : gmap string Z)
    (amount : Z) (descriptor : string) :
  basicGasMeter.costBreakdownEnabled g = true ->
  basicGasMeter.report g = Some r ->
  is_uint64 amount ->
  is_uint64 (report_get r descriptor) ->
  amount <= basicGasMeter.consumed g ->
  report_get r descriptor < amount ->
  exists g' r',
    basicGasMeter.RefundGas g amount descriptor = (g', None) /\
    basicGasMeter.Report g' = Some r' /\
    report_get r' descriptor = (report_get r descriptor - amount) mod 2 ^ 64 /\
    report_get r' descriptor = report_get r descriptor - amount + 2 ^ 64 /\
    (forall d, d <> descriptor -> r' !! d = r !! d).
Proof.
  intros Hen Hr Ha He Hle Hlt.
  unfold basicGasMeter.RefundGas.
  destruct (Z.ltb_spec (basicGasMeter.consumed g) amount); [lia |].
  destruct g as [l c enabled r0]; cbn in *. subst enabled r0. cbn.
  eexists. exists (report_sub r descriptor amount).
  split; [reflexivity |]. split; [reflexivity |].
  rewrite report_get_sub. split; [reflexivity |]. split.
  - apply wrap64_borrow. unfold is_uint64 in *. rewrite MaxUint64_eq in *. lia.
  - intros d Hd. unfold report_sub. apply lookup_insert_ne. congruence.
Qed.

Lemma RefundGas_report_wraps_witness :
  exists g' r',
    basicGasMeter.RefundGas
      (basicGasMeter.mk 100 15 true
         (Some {["ReadFlat" := 10; "WriteFlat" := 5]}))
      8 "WriteFlat"
    = (g', None) /\
    basicGasMeter.Report g' = Some r' /\
    report_get r' "WriteFlat"
    = (report_get {["ReadFlat" := 10; "WriteFlat" := 5]} "WriteFlat" - 8)
        mod 2 ^ 64 /\
    report_get r' "WriteFlat"
    = report_get {["ReadFlat" := 10; "WriteFlat" := 5]} "WriteFlat" - 8
      + 2 ^ 64 /\
    (forall d, d <> "WriteFlat" ->
       r' !! d = ({["ReadFlat" := 10; "WriteFlat" := 5]} : gmap string Z) !! d).
Proof.
  apply (RefundGas_report_wraps
           (basicGasMeter.mk 100 15 true
              (Some {["ReadFlat" := 10; "WriteFlat" := 5]}))
           {["ReadFlat" := 10; "WriteFlat" := 5]} 8 "WriteFlat");
    try reflexivity; unfold is_uint64, MaxUint64; vm_compute;
    try split; congruence.
Defined.

(** ** A unit of work that stays within the limit *)

Section WithinLimit.

Import basicGasMeter.

(** A meter built by [NewGasMeter] is well formed, and a call that
    returns keeps it so. *)
Lemma NewGasMeter_wf (limit : Z) (enabled : bool) :
  exists g, NewGasMeter limit enabled = Basic g /\
            wf g /\ basicGasMeter.limit g = limit /\ consumed g = 0.
Proof.
  destruct enabled; cbn; eexists; (split; [reflexivity |]);
    repeat split; unfold wf; cbn; congruence.
Qed.

Lemma ConsumeGas_returns (g : t) (amount : Z) (descriptor : string) :
  wf g ->
  is_uint64 (consumed g) ->
  is_uint64 amount ->
  consumed g + amount <= MaxUint64 ->
  consumed g + amount <= limit g ->
  exists g',
    basicGasMeter.ConsumeGas g amount descriptor = (g', None) /\
    wf g' /\ limit g' = limit g /\ consumed g' = consumed g + amount.
Proof.
  intros Hwf Hc Ha Hfit Hlim. unfold basicGasMeter.ConsumeGas.
  rewrite (addUint64Overflow_fits _ _ Hc Ha Hfit).
  destruct g as [l c enabled r]; unfold wf in *; cbn in *.
  destruct (Z.gtb_spec (c + amount) l); [lia |].
  destruct enabled; cbn.
  - destruct r as [r |]; [| exfalso; apply Hwf; reflexivity].
    eexists. split; [reflexivity |]. cbn. repeat split. congruence.
  - eexists. split; [reflexivity |]. cbn. repeat split. congruence.
Qed.

Lemma RefundGas_returns (g : t) (amount : Z) (descriptor : string) :
  wf g ->
  is_uint64 (consumed g) ->
  is_uint64 amount ->
  amount <= consumed g ->
  exists g',
    basicGasMeter.RefundGas g amount descriptor = (g', None) /\
    wf g' /\ limit g' = limit g /\ consumed g' = consumed g - amount.
Proof.
  intros Hwf Hc Ha Hle. unfold basicGasMeter.RefundGas.
  destruct (Z.ltb_spec (consumed g) amount); [lia |].
  assert (Hsub : wrap64 (consumed g - amount) = consumed g - amount).
  { apply wrap64_id. unfold is_uint64 in *. lia. }
  destruct g as [l c enabled r]; unfold wf in *; cbn in *.
  destruct enabled; cbn.
  - destruct r as [r |]; [| exfalso; apply Hwf; reflexivity].
    eexists. split; [reflexivity |]. cbn. repeat split; congruence.
  - eexists. split; [reflexivity |]. cbn. repeat split; congruence.
Qed.

(** From any well-formed bounded meter, a sequence of calls that stays
    within the limit runs to its end, and moves [consumed] by the charges
    less the refunds. *)
Lemma run_within_limit (calls : list Call) :
  forall g : t,
    wf g ->
    is_uint64 (consumed g) ->
    within_limit (limit g) (consumed g) calls ->
    exists g',
      run (Basic g) calls = (Basic g', None) /\
      limit g' = limit g /\
      consumed g' = consumed g + charged calls - refunded calls.
Proof.
  induction calls as [| [amount descriptor | amount descriptor] rest IH];
    intros g Hwf Hc Hin.
  - exists g. cbn. repeat split. lia.
  - cbn in Hin. destruct Hin as (Ha & Hfit & Hlim & Hrest).
    destruct (ConsumeGas_returns g amount descriptor Hwf Hc Ha Hfit Hlim)
      as (g1 & Hcall & Hwf1 & Hl1 & Hc1).
    destruct (IH g1) as (g' & Hrun & Hl' & Hc').
    + exact Hwf1.
    + unfold is_uint64 in *. lia.
    + rewrite Hl1, Hc1. exact Hrest.
    + exists g'. cbn. unfold lift. rewrite Hcall. cbn.
      repeat split; [exact Hrun | congruence | lia].
  - cbn in Hin. destruct Hin as (Ha & Hle & Hrest).
    destruct (RefundGas_returns g amount descriptor Hwf Hc Ha Hle)
      as (g1 & Hcall & Hwf1 & Hl1 & Hc1).
    destruct (IH g1) as (g' & Hrun & Hl' & Hc').
    + exact Hwf1.
    + unfold is_uint64 in *. lia.
    + rewrite Hl1, Hc1. exact Hrest.
    + exists g'. cbn. unfold lift. rewrite Hcall. cbn.
      repeat split; [exact Hrun | congruence | lia].
Qed.

End WithinLimit.

(** C1.  For a bounded meter with limit [L] and a sequence of [ConsumeGas]
    and [RefundGas] calls in which no addition overflows [uint64], the
    running sum of charges minus refunds never exceeds [L], and every
    refund is at most [consumed] at the time it is made: no call panics
    (so none of OutOfGas, GasOverflow, NegativeGasConsumed is raised), and
    [GasConsumed] is then exactly the sum of the amounts charged minus the
    sum of the amounts refunded. *)
Theorem run_GasConsumed_exact
    (limit : Z) (costBreakdownEnabled : bool) (calls : list Call) :
  within_limit limit 0 calls ->
  exists m',
    run (NewGasMeter limit costBreakdownEnabled) calls = (m', None) /\
    GasConsumed m' = charged calls - refunded calls.
Proof.
  intros Hin.
  destruct (NewGasMeter_wf limit costBreakdownEnabled)
    as (g & -> & Hwf & Hl & Hc).
  destruct (run_within_limit calls g Hwf) as (g' & Hrun & _ & Hc').
  - rewrite Hc. unfold is_uint64, MaxUint64. lia.
  - rewrite Hl, Hc. exact Hin.
  - exists (Basic g'). split; [exact Hrun |]. cbn.
    unfold basicGasMeter.GasConsumed. lia.
Qed.

Lemma run_GasConsumed_exact_witness :
  exists m',
    run (NewGasMeter 20 true)
      [CallConsumeGas 10 "ReadFlat"; CallConsumeGas 5 "ReadFlat";
       CallRefundGas 8 "WriteFlat"; CallConsumeGas 13 "WriteFlat"]
    = (m', None) /\
    GasConsumed m'
    = charged [CallConsumeGas 10 "ReadFlat"; CallConsumeGas 5 "ReadFlat";
               CallRefundGas 8 "WriteFlat"; CallConsumeGas 13 "WriteFlat"]
      - refunded [CallConsumeGas 10 "ReadFlat"; CallConsumeGas 5 "ReadFlat";
                  CallRefundGas 8 "WriteFlat"; CallConsumeGas 13 "WriteFlat"].
Proof.
  apply (run_GasConsumed_exact 20 true
           [CallConsumeGas 10 "ReadFlat"; CallConsumeGas 5 "ReadFlat";
            CallRefundGas 8 "WriteFlat"; CallConsumeGas 13 "WriteFlat"]).
  unfold within_limit, is_uint64, MaxUint64. simpl. lia.
Defined.

(** ** The unbounded meter: charging *)

(** On the unbounded meter a charge panics exactly when the sum leaves the
    [uint64] range, the panic is [ErrorGasOverflow] carrying the
    descriptor, and no charge panics with [ErrorOutOfGas]. *)
Lemma infinite_ConsumeGas_panics
    (g : infiniteGasMeter.t) (amount : Z) (descriptor : string) :
  is_uint64 (infiniteGasMeter.consumed g) ->
  (snd (infiniteGasMeter.ConsumeGas g amount descriptor)
   = Some (ErrorGasOverflow descriptor)
   <-> MaxUint64 < infiniteGasMeter.consumed g + amount) /\
  (infiniteGasMeter.consumed g + amount <= MaxUint64 ->
   snd (infiniteGasMeter.ConsumeGas g amount descriptor) = None) /\
  (forall d, snd (infiniteGasMeter.ConsumeGas g amount descriptor)
             <> Some (ErrorOutOfGas d)).
Proof.
  intros Hc. pose proof (addUint64Overflow_flag _ amount Hc) as Hflag.
  unfold infiniteGasMeter.ConsumeGas.
  destruct (addUint64Overflow (infiniteGasMeter.consumed g) amount)
    as [sum [|]]; cbn in *.
  - repeat split; try discriminate.
    + intros _. apply Hflag. reflexivity.
    + intros Hfit. apply proj1 in Hflag. specialize (Hflag eq_refl). lia.
  - repeat split; try discriminate.
    intros Hover. apply Hflag in Hover. discriminate.
Qed.

(** After the overflow panic of the unbounded meter, [consumed] holds the
    zero that [addUint64Overflow] returned with the flag. *)
Lemma infinite_ConsumeGas_overflow_state
    (g : infiniteGasMeter.t) (amount : Z) (descriptor : string) :
  is_uint64 (infiniteGasMeter.consumed g) ->
  MaxUint64 < infiniteGasMeter.consumed g + amount ->
  infiniteGasMeter.ConsumeGas g amount descriptor
  = (infiniteGasMeter.mk 0, Some (ErrorGasOverflow descriptor)).
Proof.
  intros Hc Hover. unfold infiniteGasMeter.ConsumeGas.
  rewrite (addUint64Overflow_wraps _ _ Hc Hover). reflexivity.
Qed.

(** C4.  The unbounded meter with [consumed = MaxUint64 - 1], charged 5:
    the call panics with [ErrorGasOverflow], and [GasConsumed] afterwards
    is 0, not the largest [uint64]. *)
Theorem infinite_ConsumeGas_overflow_resets :
  ConsumeGas (Infinite (infiniteGasMeter.mk (MaxUint64 - 1))) 5 "ReadFlat"
  = (Infinite (infiniteGasMeter.mk 0), Some (ErrorGasOverflow "ReadFlat")) /\
  GasConsumed
    (fst (ConsumeGas (Infinite (infiniteGasMeter.mk (MaxUint64 - 1)))
            5 "ReadFlat")) = 0 /\
  GasConsumed
    (fst (ConsumeGas (Infinite (infiniteGasMeter.mk (MaxUint64 - 1)))
            5 "ReadFlat")) <> MaxUint64.
Proof. split; [reflexivity | split; [reflexivity | discriminate]]. Qed.

(** ** The meters at work *)

Example report_accumulates :
  Report
    (fst (run (NewGasMeter 100 true)
            [CallConsumeGas 10 "ReadFlat"; CallConsumeGas 5 "ReadFlat";
             CallConsumeGas 7 "WriteFlat"]))
  = Some {["ReadFlat" := 15; "WriteFlat" := 7]}.
Proof. vm_compute. reflexivity. Qed.

Example report_absent_when_disabled :
  Report
    (fst (run (NewGasMeter 100 false)
            [CallConsumeGas 10 "ReadFlat"; CallConsumeGas 5 "ReadFlat"]))
  = None.
Proof. reflexivity. Qed.

Example run_stops_at_first_panic :
  run (NewGasMeter 12 false)
    [CallConsumeGas 10 "ReadFlat"; CallConsumeGas 5 "WriteFlat";
     CallConsumeGas 1 "Has"]
  = (Basic (basicGasMeter.mk 12 15 false None),
     Some (ErrorOutOfGas "WriteFlat")).
Proof. reflexivity. Qed.

(** * Further properties *)

(** ** addUint64Overflow *)

Lemma addUint64Overflow_leb (a b : Z) :
  is_uint64 a -> is_uint64 b ->
  addUint64Overflow a b
  = (if a + b <=? MaxUint64 then (a + b, false) else (0, true)).
Proof.
  intros Ha Hb.
  destruct (Z.leb_spec (a + b) MaxUint64) as [Hfit | Hover].
  - exact (addUint64Overflow_fits a b Ha Hb Hfit).
  - exact (addUint64Overflow_wraps a b Ha Hover).
Qed.

Lemma addUint64Overflow_uint64 (a b : Z) :
  is_uint64 a -> is_uint64 b -> is_uint64 (fst (addUint64Overflow a b)).
Proof.
  intros Ha Hb. rewrite (addUint64Overflow_leb a b Ha Hb).
  destruct (Z.leb_spec (a + b) MaxUint64); cbn;
    unfold is_uint64, MaxUint64 in *; lia.
Qed.

(** On [uint64] arguments [addUint64Overflow] returns the exact sum with the
    flag down when the sum fits, and 0 with the flag up when it does not;
    the number it returns is a [uint64] either way. *)
Theorem addUint64Overflow_spec (a b : Z) :
  is_uint64 a -> is_uint64 b ->
  addUint64Overflow a b
  = (if a + b <=? MaxUint64 then (a + b, false) else (0, true)) /\
  is_uint64 (fst (addUint64Overflow a b)).
Proof.
  intros Ha Hb. split.
  - exact (addUint64Overflow_leb a b Ha Hb).
  - exact (addUint64Overflow_uint64 a b Ha Hb).
Qed.

Lemma addUint64Overflow_spec_witness :
  addUint64Overflow (MaxUint64 - 3) 3
  = (if MaxUint64 - 3 + 3 <=? MaxUint64
     then (MaxUint64 - 3 + 3, false) else (0, true)) /\
  is_uint64 (fst (addUint64Overflow (MaxUint64 - 3) 3)).
Proof.
  apply (addUint64Overflow_spec (MaxUint64 - 3) 3);
    unfold is_uint64, MaxUint64; lia.
Defined.

(** The test [MaxUint64 - a < b] reads its arguments differently, yet on
    [uint64] arguments the result does not depend on their order. *)
Theorem addUint64Overflow_comm (a b : Z) :
  is_uint64 a -> is_uint64 b ->
  addUint64Overflow a b = addUint64Overflow b a.
Proof.
  intros Ha Hb.
  rewrite (addUint64Overflow_leb a b Ha Hb).
  rewrite (addUint64Overflow_leb b a Hb Ha).
  rewrite (Z.add_comm b a). reflexivity.
Qed.

Lemma addUint64Overflow_comm_witness :
  addUint64Overflow 7 (MaxUint64 - 2) = addUint64Overflow (MaxUint64 - 2) 7.
Proof.
  apply (addUint64Overflow_comm 7 (MaxUint64 - 2));
    unfold is_uint64, MaxUint64; lia.
Defined.

(** ** What a call leaves alone *)

(** Case analysis on the branches of a call. *)
Ltac call_cases :=
  repeat match goal with
    | |- context [addUint64Overflow ?a ?b] =>
        destruct (addUint64Overflow a b) as [? []]; cbn
    | |- context [if ?b then _ else _] => destruct b eqn:?; cbn
    | |- context [match ?r with Some _ => _ | None => _ end] =>
        destruct r eqn:?; cbn
    end.

Lemma call_Limit (m : GasMeter) (c : Call) :
  Limit (fst (call m c)) = Limit m.
Proof.
  destruct m as [[l k enabled r] | [k]], c as [amount d | amount d]; cbn;
    unfold basicGasMeter.ConsumeGas, basicGasMeter.RefundGas,
      infiniteGasMeter.ConsumeGas, infiniteGasMeter.RefundGas; cbn;
    call_cases; reflexivity.
Qed.

(** The meter a sequence of calls ends on is the meter of its last call
    made. *)
Lemma run_cons (m : GasMeter) (c : Call) (rest : list Call) :
  run m (c :: rest)
  = match snd (call m c) with
    | None => run (fst (call m c)) rest
    | Some p => (fst (call m c), Some p)
    end.
Proof. cbn. destruct (call m c) as [m' [p |]]; reflexivity. Qed.

Section RunInvariant.

Variable P : GasMeter -> Prop.
Variable allowed_call : Call -> Prop.
Hypothesis call_keeps :
  forall m c, P m -> allowed_call c -> P (fst (call m c)).

(** What every allowed call keeps, a sequence of them keeps, whether it
    runs to its end or stops at a panic. *)
Lemma run_keeps (calls : list Call) :
  forall m, P m -> Forall allowed_call calls -> P (fst (run m calls)).
Proof.
  induction calls as [| c rest IH]; intros m Hm Hall.
  - exact Hm.
  - inversion Hall as [| ? ? Hc Hrest]; subst.
    rewrite run_cons. pose proof (call_keeps m c Hm Hc) as Hstep.
    destruct (snd (call m c)); cbn; [exact Hstep |].
    apply IH; assumption.
Qed.

End RunInvariant.

(** No sequence of calls, on either meter and whatever its outcome, changes
    what [Limit] returns. *)
Theorem run_Limit (m : GasMeter) (calls : list Call) :
  Limit (fst (run m calls)) = Limit m.
Proof.
  apply (run_keeps (fun m' => Limit m' = Limit m) (fun _ => True)).
  - intros m' c Hm' _. rewrite call_Limit. exact Hm'.
  - reflexivity.
  - apply Forall_forall. intros; exact I.
Qed.

(** ** The range of [consumed] *)




(** ** The bounded meter and its limit *)

(** [GasConsumedToLimit] is the smaller of [consumed] and [limit]. *)
Lemma GasConsumedToLimit_min (g : basicGasMeter.t) :
  basicGasMeter.GasConsumedToLimit g
  = Z.min (basicGasMeter.consumed g) (basicGasMeter.limit g).
Proof.
  unfold basicGasMeter.GasConsumedToLimit, basicGasMeter.IsPastLimit.
  destruct (Z.gtb_spec (basicGasMeter.consumed g) (basicGasMeter.limit g));
    lia.
Qed.

(** A charge on the bounded meter never lowers [consumed], whether it
    returns or panics. *)
Theorem ConsumeGas_never_lowers
    (g : basicGasMeter.t) (amount : Z) (descriptor : string) :
  is_uint64 (basicGasMeter.consumed g) ->
  is_uint64 amount ->
  basicGasMeter.consumed g
  <= basicGasMeter.consumed
       (fst (basicGasMeter.ConsumeGas g amount descriptor)).
Proof.
  intros Hc Ha.
  destruct (Z.le_gt_cases (basicGasMeter.consumed g + amount) MaxUint64)
    as [Hfit | Hover].
  - unfold basicGasMeter.ConsumeGas.
    rewrite (addUint64Overflow_fits _ _ Hc Ha Hfit).
    destruct g as [l k enabled r]; cbn in *.
    call_cases; unfold is_uint64 in *; lia.
  - unfold basicGasMeter.ConsumeGas.
    rewrite (addUint64Overflow_wraps _ _ Hc Hover). cbn.
    unfold is_uint64 in *. lia.
Qed.

Lemma ConsumeGas_never_lowers_witness :
  7 <= basicGasMeter.consumed
         (fst (basicGasMeter.ConsumeGas
                 (basicGasMeter.mk 10 7 false None) 5 "Has")).
Proof.
  apply (ConsumeGas_never_lowers (basicGasMeter.mk 10 7 false None) 5 "Has");
    unfold is_uint64, MaxUint64; cbn; lia.
Defined.

(** A charge on the bounded meter returns normally exactly when the sum
    fits in a [uint64] and does not exceed the limit. *)
Theorem ConsumeGas_returns_iff
    (g : basicGasMeter.t) (amount : Z) (descriptor : string) :
  basicGasMeter.wf g ->
  is_uint64 (basicGasMeter.consumed g) ->
  is_uint64 amount ->
  snd (basicGasMeter.ConsumeGas g amount descriptor) = None
  <-> basicGasMeter.consumed g + amount <= MaxUint64 /\
      basicGasMeter.consumed g + amount <= basicGasMeter.limit g.
Proof.
  intros Hwf Hc Ha. unfold basicGasMeter.ConsumeGas.
  rewrite (addUint64Overflow_leb _ _ Hc Ha).
  destruct g as [l k enabled r]; unfold basicGasMeter.wf in *; cbn in *.
  destruct (Z.leb_spec (k + amount) MaxUint64); cbn.
  - destruct (Z.gtb_spec (k + amount) l); cbn.
    + split; [discriminate | lia].
    + destruct enabled; cbn.
      * destruct r; cbn; [split; [lia | reflexivity] |].
        exfalso. apply Hwf; reflexivity.
      * split; [lia | reflexivity].
  - split; [discriminate | lia].
Qed.

Lemma ConsumeGas_returns_iff_witness :
  snd (basicGasMeter.ConsumeGas (basicGasMeter.mk 10 7 true (Some ∅)) 3 "Has")
  = None
  <-> 7 + 3 <= MaxUint64 /\ 7 + 3 <= 10.
Proof.
  apply (ConsumeGas_returns_iff (basicGasMeter.mk 10 7 true (Some ∅)) 3 "Has");
    unfold basicGasMeter.wf, is_uint64, MaxUint64; cbn; [congruence | lia ..].
Defined.

(** A charge on the bounded meter that returns normally leaves the meter
    within its limit: [IsPastLimit] is false and [GasConsumedToLimit] is
    [GasConsumed]. *)
Theorem ConsumeGas_returned_within_limit
    (g g' : basicGasMeter.t) (amount : Z) (descriptor : string) :
  basicGasMeter.ConsumeGas g amount descriptor = (g', None) ->
  basicGasMeter.IsPastLimit g' = false /\
  basicGasMeter.GasConsumedToLimit g' = basicGasMeter.GasConsumed g'.
Proof.
  destruct g as [l k enabled r].
  unfold basicGasMeter.ConsumeGas, basicGasMeter.GasConsumedToLimit,
    basicGasMeter.IsPastLimit. cbn.
  destruct (addUint64Overflow k amount) as [sum []]; cbn; [discriminate |].
  destruct (sum >? l) eqn:Hlim; cbn; [discriminate |].
  destruct enabled; cbn.
  - destruct r; cbn; [| discriminate].
    intros [= <-]. cbn. rewrite Hlim. split; reflexivity.
  - intros [= <-]. cbn. rewrite Hlim. split; reflexivity.
Qed.

Lemma ConsumeGas_returned_within_limit_witness :
  basicGasMeter.IsPastLimit (basicGasMeter.mk 10 10 false None) = false /\
  basicGasMeter.GasConsumedToLimit (basicGasMeter.mk 10 10 false None)
  = basicGasMeter.GasConsumed (basicGasMeter.mk 10 10 false None).
Proof.
  apply (ConsumeGas_returned_within_limit
           (basicGasMeter.mk 10 7 false None)
           (basicGasMeter.mk 10 10 false None) 3 "Has").
  reflexivity.
Defined.

(** Once the bounded meter is past its limit, every further charge panics,
    with [ErrorOutOfGas] or [ErrorGasOverflow], and leaves the meter past
    its limit. *)
Theorem ConsumeGas_past_limit_panics
    (g : basicGasMeter.t) (amount : Z) (descriptor : string) :
  is_uint64 (basicGasMeter.consumed g) ->
  is_uint64 amount ->
  basicGasMeter.IsPastLimit g = true ->
  exists g' p,
    basicGasMeter.ConsumeGas g amount descriptor = (g', Some p) /\
    (p = ErrorOutOfGas descriptor \/ p = ErrorGasOverflow descriptor) /\
    basicGasMeter.IsPastLimit g' = true.
Proof.
  intros Hc Ha Hpast.
  unfold basicGasMeter.ConsumeGas, basicGasMeter.IsPastLimit in *.
  rewrite (addUint64Overflow_leb _ _ Hc Ha).
  destruct g as [l k enabled r]; cbn in *.
  apply Z.gtb_lt in Hpast.
  destruct (Z.leb_spec (k + amount) MaxUint64); cbn.
  - destruct (Z.gtb_spec (k + amount) l); cbn;
      [| unfold is_uint64 in *; lia].
    eexists. eexists. split; [reflexivity |]. split; [left; reflexivity |].
    cbn. apply Z.gtb_lt. lia.
  - eexists. eexists. split; [reflexivity |]. split; [right; reflexivity |].
    cbn. apply Z.gtb_lt. unfold is_uint64 in *. lia.
Qed.

Lemma ConsumeGas_past_limit_panics_witness :
  exists g' p,
    basicGasMeter.ConsumeGas (basicGasMeter.mk 10 12 false None) 0 "Has"
    = (g', Some p) /\
    (p = ErrorOutOfGas "Has" \/ p = ErrorGasOverflow "Has") /\
    basicGasMeter.IsPastLimit g' = true.
Proof.
  apply (ConsumeGas_past_limit_panics
           (basicGasMeter.mk 10 12 false None) 0 "Has");
    unfold is_uint64, MaxUint64; cbn; [lia | lia | reflexivity].
Defined.

(** ** A fresh bounded meter *)

(** On a meter just built by [NewGasMeter] the first charge returns
    normally exactly when the amount is at most the limit, and panics with
    [ErrorOutOfGas] otherwise; the fresh meter is never past its limit, and
    it is out of gas from the start exactly when the limit is 0. *)
Theorem NewGasMeter_first_charge
    (limit : Z) (costBreakdownEnabled : bool)
    (amount : Z) (descriptor : string) :
  is_uint64 limit ->
  is_uint64 amount ->
  (snd (ConsumeGas (NewGasMeter limit costBreakdownEnabled) amount descriptor)
   = None <-> amount <= limit) /\
  (limit < amount ->
   snd (ConsumeGas (NewGasMeter limit costBreakdownEnabled) amount descriptor)
   = Some (ErrorOutOfGas descriptor)) /\
  IsPastLimit (NewGasMeter limit costBreakdownEnabled) = false /\
  (IsOutOfGas (NewGasMeter limit costBreakdownEnabled) = true <-> limit = 0).
Proof.
  intros Hl Ha.
  assert (H0 : is_uint64 0) by (unfold is_uint64, MaxUint64; lia).
  assert (Hfit : 0 + amount <= MaxUint64) by (unfold is_uint64 in *; lia).
  destruct costBreakdownEnabled; cbn;
    unfold basicGasMeter.ConsumeGas, basicGasMeter.IsPastLimit,
      basicGasMeter.IsOutOfGas; cbn;
    rewrite (addUint64Overflow_fits 0 amount H0 Ha Hfit);
    change (0 + amount) with amount; cbn;
    destruct (Z.gtb_spec amount limit); cbn;
    destruct (Z.gtb_spec 0 limit); destruct (Z.geb_spec 0 limit);
    unfold is_uint64 in *;
    repeat split; intros; try lia; try discriminate; try reflexivity.
Qed.

Lemma NewGasMeter_first_charge_witness :
  snd (ConsumeGas (NewGasMeter 0 true) 1 "Has") = Some (ErrorOutOfGas "Has").
Proof.
  apply (NewGasMeter_first_charge 0 true 1 "Has");
    unfold is_uint64, MaxUint64; lia.
Defined.

(** ** Which panics a call can raise *)

Lemma call_wf (m : GasMeter) (c : Call) :
  GasMeter_wf m -> GasMeter_wf (fst (call m c)).
Proof.
  destruct m as [[l k enabled r] | [k]], c as [amount d | amount d];
    unfold GasMeter_wf, basicGasMeter.wf; cbn;
    unfold basicGasMeter.ConsumeGas, basicGasMeter.RefundGas,
      infiniteGasMeter.ConsumeGas, infiniteGasMeter.RefundGas; cbn;
    intros Hwf; call_cases; try exact I; try exact Hwf; congruence.
Qed.

Lemma ConsumeGas_panic_kinds
    (m : GasMeter) (amount : Z) (descriptor : string) :
  GasMeter_wf m ->
  snd (ConsumeGas m amount descriptor) = None \/
  snd (ConsumeGas m amount descriptor) = Some (ErrorOutOfGas descriptor) \/
  snd (ConsumeGas m amount descriptor) = Some (ErrorGasOverflow descriptor).
Proof.
  destruct m as [[l k enabled r] | [k]];
    unfold GasMeter_wf, basicGasMeter.wf; cbn;
    unfold basicGasMeter.ConsumeGas, infiniteGasMeter.ConsumeGas; cbn;
    intros Hwf; call_cases; auto.
  exfalso. apply Hwf; reflexivity.
Qed.

Lemma RefundGas_panic_kinds
    (m : GasMeter) (amount : Z) (descriptor : string) :
  GasMeter_wf m ->
  snd (RefundGas m amount descriptor) = None \/
  snd (RefundGas m amount descriptor)
  = Some (ErrorNegativeGasConsumed descriptor).
Proof.
  destruct m as [[l k enabled r] | [k]];
    unfold GasMeter_wf, basicGasMeter.wf; cbn;
    unfold basicGasMeter.RefundGas, infiniteGasMeter.RefundGas; cbn;
    intros Hwf; call_cases; auto.
  exfalso. apply Hwf; reflexivity.
Qed.

(** On a well-formed meter of either kind, [ConsumeGas] returns or panics
    with [ErrorOutOfGas] or [ErrorGasOverflow], and [RefundGas] returns or
    panics with [ErrorNegativeGasConsumed]; the payload always carries the
    descriptor of the call. *)
Theorem call_panic_kinds (m : GasMeter) (amount : Z) (descriptor : string) :
  GasMeter_wf m ->
  (snd (ConsumeGas m amount descriptor) = None \/
   snd (ConsumeGas m amount descriptor) = Some (ErrorOutOfGas descriptor) \/
   snd (ConsumeGas m amount descriptor) = Some (ErrorGasOverflow descriptor))
  /\
  (snd (RefundGas m amount descriptor) = None \/
   snd (RefundGas m amount descriptor)
   = Some (ErrorNegativeGasConsumed descriptor)).
Proof.
  intros Hwf. split.
  - exact (ConsumeGas_panic_kinds m amount descriptor Hwf).
  - exact (RefundGas_panic_kinds m amount descriptor Hwf).
Qed.

Lemma call_panic_kinds_witness :
  (snd (ConsumeGas (NewGasMeter 10 true) 11 "Has") = None \/
   snd (ConsumeGas (NewGasMeter 10 true) 11 "Has")
   = Some (ErrorOutOfGas "Has") \/
   snd (ConsumeGas (NewGasMeter 10 true) 11 "Has")
   = Some (ErrorGasOverflow "Has"))
  /\
  (snd (RefundGas (NewGasMeter 10 true) 11 "Has") = None \/
   snd (RefundGas (NewGasMeter 10 true) 11 "Has")
   = Some (ErrorNegativeGasConsumed "Has")).
Proof.
  apply (call_panic_kinds (NewGasMeter 10 true) 11 "Has").
  unfold GasMeter_wf, basicGasMeter.wf. cbn. congruence.
Defined.

Lemma call_gas_error (m : GasMeter) (c : Call) (p : Panic) :
  GasMeter_wf m -> snd (call m c) = Some p -> gas_error p.
Proof.
  intros Hwf. destruct c as [amount d | amount d]; cbn.
  - destruct (ConsumeGas_panic_kinds m amount d Hwf) as [-> | [-> | ->]];
      [discriminate | intros [= <-]; exact I ..].
  - destruct (RefundGas_panic_kinds m amount d Hwf) as [-> | ->];
      [discriminate | intros [= <-]; exact I].
Qed.

Lemma run_gas_error (calls : list Call) :
  forall (m : GasMeter) (p : Panic),
    GasMeter_wf m -> snd (run m calls) = Some p -> gas_error p.
Proof.
  induction calls as [| c rest IH]; intros m p Hwf.
  - discriminate.
  - rewrite run_cons. destruct (snd (call m c)) as [q |] eqn:Hq; cbn.
    + intros [= <-]. exact (call_gas_error m c q Hwf Hq).
    + apply IH. apply call_wf. exact Hwf.
Qed.

(** A meter built by [NewGasMeter] or [NewInfiniteGasMeter] never runs into
    an assignment to a nil map: whatever the calls, a panic that ends them
    is one of the three gas errors. *)
Theorem constructed_meter_gas_error
    (limit : Z) (costBreakdownEnabled : bool)
    (calls : list Call) (p : Panic) :
  snd (run (NewGasMeter limit costBreakdownEnabled) calls) = Some p \/
  snd (run NewInfiniteGasMeter calls) = Some p ->
  gas_error p.
Proof.
  intros [Hp | Hp]; refine (run_gas_error calls _ p _ Hp).
  - destruct costBreakdownEnabled; unfold GasMeter_wf, basicGasMeter.wf;
      cbn; congruence.
  - exact I.
Qed.

Lemma constructed_meter_gas_error_witness :
  gas_error (ErrorNegativeGasConsumed "Delete").
Proof.
  apply (constructed_meter_gas_error 10 true
           [CallConsumeGas 4 "Has"; CallRefundGas 5 "Delete"]
           (ErrorNegativeGasConsumed "Delete")).
  left. reflexivity.
Defined.

(** ** Breakdown tracking switched off *)

Lemma call_report_disabled (g : basicGasMeter.t) (c : Call) :
  basicGasMeter.costBreakdownEnabled g = false ->
  exists g',
    fst (call (Basic g) c) = Basic g' /\
    basicGasMeter.costBreakdownEnabled g' = false /\
    basicGasMeter.report g' = basicGasMeter.report g.
Proof.
  destruct g as [l k enabled r], c as [amount d | amount d]; cbn;
    intros ->;
    unfold basicGasMeter.ConsumeGas, basicGasMeter.RefundGas; cbn;
    call_cases; eexists; repeat split.
Qed.

Lemma run_report_disabled (g : basicGasMeter.t) (calls : list Call) :
  basicGasMeter.costBreakdownEnabled g = false ->
  exists g',
    fst (run (Basic g) calls) = Basic g' /\
    basicGasMeter.costBreakdownEnabled g' = false /\
    basicGasMeter.report g' = basicGasMeter.report g.
Proof.
  intros Hdis.
  apply (run_keeps
           (fun m => exists g', m = Basic g' /\
                      basicGasMeter.costBreakdownEnabled g' = false /\
                      basicGasMeter.report g' = basicGasMeter.report g)
           (fun _ => True)).
  - intros m c (g1 & -> & Hdis1 & Hr1) _.
    destruct (call_report_disabled g1 c Hdis1) as (g2 & -> & Hdis2 & Hr2).
    exists g2. repeat split; congruence.
  - exists g. repeat split. exact Hdis.
  - apply Forall_forall. intros; exact I.
Qed.

(** With breakdown tracking switched off, no sequence of calls, whatever
    its outcome, creates a report: [Report] stays nil. *)
Theorem run_Report_disabled (limit : Z) (calls : list Call) :
  Report (fst (run (NewGasMeter limit false) calls)) = None.
Proof.
  destruct (run_report_disabled (basicGasMeter.mk limit 0 false None) calls)
    as (g' & Hrun & _ & Hr); [reflexivity |].
  cbn. rewrite Hrun. exact Hr.
Qed.

(** ** The unbounded meter over a unit of work *)

Lemma call_Infinite (g : infiniteGasMeter.t) (c : Call) :
  (exists g', fst (call (Infinite g) c) = Infinite g') /\
  (forall d, snd (call (Infinite g) c) <> Some (ErrorOutOfGas d)).
Proof.
  destruct g as [k], c as [amount d0 | amount d0]; cbn;
    unfold infiniteGasMeter.ConsumeGas, infiniteGasMeter.RefundGas; cbn;
    call_cases; (split; [eexists; reflexivity | intros; discriminate]).
Qed.

Lemma run_Infinite (calls : list Call) :
  forall g : infiniteGasMeter.t,
    (exists g', fst (run (Infinite g) calls) = Infinite g') /\
    (forall d, snd (run (Infinite g) calls) <> Some (ErrorOutOfGas d)).
Proof.
  induction calls as [| c rest IH]; intros g.
  - cbn. split; [eexists; reflexivity | intros; discriminate].
  - rewrite run_cons.
    destruct (call_Infinite g c) as [[g1 Hg1] Hp1].
    destruct (snd (call (Infinite g) c)) as [p |]; cbn.
    + split; [exists g1; exact Hg1 | exact Hp1].
    + rewrite Hg1. apply IH.
Qed.

(** However much is charged to it and whatever the outcome of the calls,
    the unbounded meter never raises [ErrorOutOfGas], is never out of gas
    nor past a limit, reports the limit 0 and has no report. *)
Theorem run_infinite_no_limit (g : infiniteGasMeter.t) (calls : list Call) :
  (forall d, snd (run (Infinite g) calls) <> Some (ErrorOutOfGas d)) /\
  IsOutOfGas (fst (run (Infinite g) calls)) = false /\
  IsPastLimit (fst (run (Infinite g) calls)) = false /\
  Limit (fst (run (Infinite g) calls)) = 0 /\
  Report (fst (run (Infinite g) calls)) = None.
Proof.
  destruct (run_Infinite calls g) as [[g' ->] Hp].
  split; [exact Hp |]. repeat split.
Qed.

Lemma infinite_ConsumeGas_returns
    (g : infiniteGasMeter.t) (amount : Z) (descriptor : string) :
  is_uint64 (infiniteGasMeter.consumed g) ->
  is_uint64 amount ->
  infiniteGasMeter.consumed g + amount <= MaxUint64 ->
  infiniteGasMeter.ConsumeGas g amount descriptor
  = (infiniteGasMeter.mk (infiniteGasMeter.consumed g + amount), None).
Proof.
  intros Hc Ha Hfit. unfold infiniteGasMeter.ConsumeGas.
  rewrite (addUint64Overflow_fits _ _ Hc Ha Hfit). reflexivity.
Qed.

Lemma infinite_RefundGas_returns
    (g : infiniteGasMeter.t) (amount : Z) (descriptor : string) :
  is_uint64 (infiniteGasMeter.consumed g) ->
  is_uint64 amount ->
  amount <= infiniteGasMeter.consumed g ->
  infiniteGasMeter.RefundGas g amount descriptor
  = (infiniteGasMeter.mk (infiniteGasMeter.consumed g - amount), None).
Proof.
  intros Hc Ha Hle. unfold infiniteGasMeter.RefundGas.
  destruct (Z.ltb_spec (infiniteGasMeter.consumed g) amount); [lia |].
  rewrite wrap64_id by (unfold is_uint64 in *; lia). reflexivity.
Qed.

Lemma run_infinite_within (calls : list Call) :
  forall g : infiniteGasMeter.t,
    is_uint64 (infiniteGasMeter.consumed g) ->
    within_limit MaxUint64 (infiniteGasMeter.consumed g) calls ->
    exists g',
      run (Infinite g) calls = (Infinite g', None) /\
      infiniteGasMeter.consumed g'
      = infiniteGasMeter.consumed g + charged calls - refunded calls.
Proof.
  induction calls as [| [amount d | amount d] rest IH]; intros g Hc Hin.
  - exists g. cbn. split; [reflexivity | lia].
  - cbn in Hin. destruct Hin as (Ha & Hfit & _ & Hrest).
    destruct (IH (infiniteGasMeter.mk (infiniteGasMeter.consumed g + amount)))
      as (g' & Hrun & Hg').
    + cbn. unfold is_uint64 in *. lia.
    + exact Hrest.
    + exists g'. cbn.
      rewrite (infinite_ConsumeGas_returns g amount d Hc Ha Hfit).
      unfold lift. cbn in *. split; [exact Hrun | lia].
  - cbn in Hin. destruct Hin as (Ha & Hle & Hrest).
    destruct (IH (infiniteGasMeter.mk (infiniteGasMeter.consumed g - amount)))
      as (g' & Hrun & Hg').
    + cbn. unfold is_uint64 in *. lia.
    + exact Hrest.
    + exists g'. cbn.
      rewrite (infinite_RefundGas_returns g amount d Hc Ha Hle).
      unfold lift. cbn in *. split; [exact Hrun | lia].
Qed.

(** On a meter built by [NewInfiniteGasMeter], a sequence of calls in which
    no charge takes the running total above the largest [uint64] and no
    refund is larger than the running total runs to its end without a
    panic, and [GasConsumed] is then the sum of the charges minus the sum
    of the refunds. *)
Theorem run_infinite_exact (calls : list Call) :
  within_limit MaxUint64 0 calls ->
  exists m',
    run NewInfiniteGasMeter calls = (m', None) /\
    GasConsumed m' = charged calls - refunded calls.
Proof.
  intros Hin.
  destruct (run_infinite_within calls (infiniteGasMeter.mk 0))
    as (g' & Hrun & Hg').
  - unfold is_uint64, MaxUint64. cbn. lia.
  - exact Hin.
  - exists (Infinite g'). split; [exact Hrun |].
    cbn in *. unfold infiniteGasMeter.GasConsumed. lia.
Qed.

Lemma run_infinite_exact_witness :
  exists m',
    run NewInfiniteGasMeter
      [CallConsumeGas (MaxUint64 - 1) "WriteFlat"; CallRefundGas 8 "Has";
       CallConsumeGas 9 "ReadFlat"]
    = (m', None) /\
    GasConsumed m'
    = charged [CallConsumeGas (MaxUint64 - 1) "WriteFlat";
               CallRefundGas 8 "Has"; CallConsumeGas 9 "ReadFlat"]
      - refunded [CallConsumeGas (MaxUint64 - 1) "WriteFlat";
                  CallRefundGas 8 "Has"; CallConsumeGas 9 "ReadFlat"].
Proof.
  apply (run_infinite_exact
           [CallConsumeGas (MaxUint64 - 1) "WriteFlat"; CallRefundGas 8 "Has";
            CallConsumeGas 9 "ReadFlat"]).
  unfold within_limit, is_uint64, MaxUint64. lia.
Defined.

(** ** Calls of amount zero *)

(** A call of amount 0, on either meter, leaves [consumed] as it is; such a
    charge never raises [ErrorGasOverflow] and such a refund never raises
    [ErrorNegativeGasConsumed]. *)
Theorem zero_amount_calls (m : GasMeter) (descriptor : string) :
  is_uint64 (GasConsumed m) ->
  GasConsumed (fst (ConsumeGas m 0 descriptor)) = GasConsumed m /\
  GasConsumed (fst (RefundGas m 0 descriptor)) = GasConsumed m /\
  (forall d, snd (ConsumeGas m 0 descriptor) <> Some (ErrorGasOverflow d)) /\
  (forall d, snd (RefundGas m 0 descriptor)
             <> Some (ErrorNegativeGasConsumed d)).
Proof.
  intros Hc.
  assert (H0 : is_uint64 0) by (unfold is_uint64, MaxUint64; lia).
  assert (Hw : wrap64 (GasConsumed m - 0) = GasConsumed m)
    by (rewrite Z.sub_0_r; apply wrap64_id; exact Hc).
  destruct m as [[l k enabled r] | [k]]; cbn in *;
    unfold basicGasMeter.ConsumeGas, basicGasMeter.RefundGas,
      infiniteGasMeter.ConsumeGas, infiniteGasMeter.RefundGas,
      basicGasMeter.GasConsumed, infiniteGasMeter.GasConsumed in *;
    cbn in *;
    rewrite (addUint64Overflow_fits k 0 Hc H0) by (unfold is_uint64 in *; lia);
    rewrite Z.add_0_r;
    (destruct (Z.ltb_spec k 0); [unfold is_uint64 in *; lia |]);
    cbn; repeat split; call_cases; try assumption; try reflexivity;
    intros; discriminate.
Qed.

Lemma zero_amount_calls_witness :
  GasConsumed (fst (ConsumeGas (Infinite (infiniteGasMeter.mk MaxUint64))
                      0 "Has")) = MaxUint64 /\
  GasConsumed (fst (RefundGas (Infinite (infiniteGasMeter.mk MaxUint64))
                      0 "Has")) = MaxUint64 /\
  (forall d, snd (ConsumeGas (Infinite (infiniteGasMeter.mk MaxUint64))
                    0 "Has") <> Some (ErrorGasOverflow d)) /\
  (forall d, snd (RefundGas (Infinite (infiniteGasMeter.mk MaxUint64))
                    0 "Has") <> Some (ErrorNegativeGasConsumed d)).
Proof.
  apply (zero_amount_calls (Infinite (infiniteGasMeter.mk MaxUint64)) "Has").
  unfold is_uint64, MaxUint64. cbn. lia.
Defined.

(** ** Arithmetic of report entries *)

Lemma wrap64_uint64 (z : Z) : is_uint64 (wrap64 z).
Proof.
  unfold is_uint64, wrap64. rewrite MaxUint64_eq.
  pose proof (Z.mod_pos_bound z (2 ^ 64)). lia.
Qed.

Lemma wrap64_add_l (x y : Z) : wrap64 (wrap64 x + y) = wrap64 (x + y).
Proof. unfold wrap64. apply Zplus_mod_idemp_l. Qed.

Lemma wrap64_sub_l (x y : Z) : wrap64 (wrap64 x - y) = wrap64 (x - y).
Proof. unfold wrap64. apply Zminus_mod_idemp_l. Qed.

Lemma report_get_add_ne (r : gmap string Z) (d d' : string) (amount : Z) :
  d <> d' -> report_get (report_add r d amount) d' = report_get r d'.
Proof.
  intros Hne. unfold report_add. unfold report_get at 1.
  rewrite lookup_insert_ne by exact Hne. reflexivity.
Qed.

Lemma report_get_sub_ne (r : gmap string Z) (d d' : string) (amount : Z) :
  d <> d' -> report_get (report_sub r d amount) d' = report_get r d'.
Proof.
  intros Hne. unfold report_sub. unfold report_get at 1.
  rewrite lookup_insert_ne by exact Hne. reflexivity.
Qed.

Lemma report_add_uint64 (r : gmap string Z) (d : string) (amount : Z) :
  report_uint64 r -> report_uint64 (report_add r d amount).
Proof.
  intros Hr d'. destruct (decide (d = d')) as [<- | Hne].
  - rewrite report_get_add. apply wrap64_uint64.
  - rewrite report_get_add_ne by exact Hne. apply Hr.
Qed.

Lemma report_sub_uint64 (r : gmap string Z) (d : string) (amount : Z) :
  report_uint64 r -> report_uint64 (report_sub r d amount).
Proof.
  intros Hr d'. destruct (decide (d = d')) as [<- | Hne].
  - rewrite report_get_sub. apply wrap64_uint64.
  - rewrite report_get_sub_ne by exact Hne. apply Hr.
Qed.

Lemma report_add_comm
    (r : gmap string Z) (d1 d2 : string) (a1 a2 : Z) :
  report_add (report_add r d1 a1) d2 a2
  = report_add (report_add r d2 a2) d1 a1.
Proof.
  destruct (decide (d1 = d2)) as [<- | Hne].
  - unfold report_add at 1 3. rewrite !report_get_add, !wrap64_add_l.
    unfold report_add. rewrite !insert_insert_eq.
    do 2 f_equal. lia.
  - unfold report_add at 1 3.
    rewrite (report_get_add_ne r d1 d2 a1 Hne).
    rewrite (report_get_add_ne r d2 d1 a2) by congruence.
    unfold report_add. apply insert_insert_ne. congruence.
Qed.

(** ** The meter a returning call leaves *)

Lemma ConsumeGas_returns_eq
    (g : basicGasMeter.t) (amount : Z) (descriptor : string) :
  basicGasMeter.wf g ->
  is_uint64 (basicGasMeter.consumed g) ->
  is_uint64 amount ->
  basicGasMeter.consumed g + amount <= MaxUint64 ->
  basicGasMeter.consumed g + amount <= basicGasMeter.limit g ->
  basicGasMeter.ConsumeGas g amount descriptor
  = (basicGasMeter.mk
       (basicGasMeter.limit g)
       (basicGasMeter.consumed g + amount)
       (basicGasMeter.costBreakdownEnabled g)
       (if basicGasMeter.costBreakdownEnabled g
        then (fun r => report_add r descriptor amount)
               <$> basicGasMeter.report g
        else basicGasMeter.report g),
     None).
Proof.
  intros Hwf Hc Ha Hfit Hlim. unfold basicGasMeter.ConsumeGas.
  rewrite (addUint64Overflow_fits _ _ Hc Ha Hfit).
  destruct g as [l k enabled r]; unfold basicGasMeter.wf in *; cbn in *.
  destruct (Z.gtb_spec (k + amount) l); [lia |].
  destruct enabled; cbn; [| reflexivity].
  destruct r as [r |]; [reflexivity |]. exfalso. apply Hwf; reflexivity.
Qed.

Lemma RefundGas_returns_eq
    (g : basicGasMeter.t) (amount : Z) (descriptor : string) :
  basicGasMeter.wf g ->
  is_uint64 (basicGasMeter.consumed g) ->
  is_uint64 amount ->
  amount <= basicGasMeter.consumed g ->
  basicGasMeter.RefundGas g amount descriptor
  = (basicGasMeter.mk
       (basicGasMeter.limit g)
       (basicGasMeter.consumed g - amount)
       (basicGasMeter.costBreakdownEnabled g)
       (if basicGasMeter.costBreakdownEnabled g
        then (fun r => report_sub r descriptor amount)
               <$> basicGasMeter.report g
        else basicGasMeter.report g),
     None).
Proof.
  intros Hwf Hc Ha Hle. unfold basicGasMeter.RefundGas.
  destruct (Z.ltb_spec (basicGasMeter.consumed g) amount); [lia |].
  rewrite wrap64_id by (unfold is_uint64 in *; lia).
  destruct g as [l k enabled r]; unfold basicGasMeter.wf in *; cbn in *.
  destruct enabled; cbn; [| reflexivity].
  destruct r as [r |]; [reflexivity |]. exfalso. apply Hwf; reflexivity.
Qed.

(** ** Charges commute *)

(** Two charges that fit together under the limit can be made in either
    order: both orders return normally and leave the same meter, report
    included. *)
Theorem ConsumeGas_commute
    (g : basicGasMeter.t) (a1 a2 : Z) (d1 d2 : string) :
  basicGasMeter.wf g ->
  is_uint64 (basicGasMeter.consumed g) ->
  is_uint64 a1 -> is_uint64 a2 ->
  basicGasMeter.consumed g + a1 + a2 <= MaxUint64 ->
  basicGasMeter.consumed g + a1 + a2 <= basicGasMeter.limit g ->
  run (Basic g) [CallConsumeGas a1 d1; CallConsumeGas a2 d2]
  = run (Basic g) [CallConsumeGas a2 d2; CallConsumeGas a1 d1] /\
  snd (run (Basic g) [CallConsumeGas a1 d1; CallConsumeGas a2 d2]) = None.
Proof.
  intros Hwf Hc Ha1 Ha2 Hfit Hlim.
  assert (Hstep : forall a d a' d',
             is_uint64 a -> is_uint64 a' ->
             basicGasMeter.consumed g + a + a' <= MaxUint64 ->
             basicGasMeter.consumed g + a + a' <= basicGasMeter.limit g ->
             run (Basic g) [CallConsumeGas a d; CallConsumeGas a' d']
             = (Basic
                  (basicGasMeter.mk
                     (basicGasMeter.limit g)
                     (basicGasMeter.consumed g + a + a')
                     (basicGasMeter.costBreakdownEnabled g)
                     (if basicGasMeter.costBreakdownEnabled g
                      then (fun r => report_add (report_add r d a) d' a')
                             <$> basicGasMeter.report g
                      else basicGasMeter.report g)), None)).
  { intros a d a' d' Ha Ha' Hfit' Hlim'. cbn.
    rewrite (ConsumeGas_returns_eq g a d) by
      (try assumption; unfold is_uint64 in *; lia).
    unfold lift. cbn.
    rewrite ConsumeGas_returns_eq; cbn;
      try assumption; try (unfold is_uint64 in *; lia).
    - destruct g as [l k [] [r |]]; reflexivity.
    - destruct g as [l k [] [r |]]; unfold basicGasMeter.wf in *; cbn in *;
        first [congruence | exact Hwf]. }
  rewrite (Hstep a1 d1 a2 d2) by assumption.
  rewrite (Hstep a2 d2 a1 d1) by (try assumption; lia).
  split; [| reflexivity].
  replace (basicGasMeter.consumed g + a2 + a1)
    with (basicGasMeter.consumed g + a1 + a2) by lia.
  destruct g as [l k [] [r |]]; cbn; try reflexivity.
  rewrite report_add_comm. reflexivity.
Qed.

Lemma ConsumeGas_commute_witness :
  run (Basic (basicGasMeter.mk 20 2 true (Some {["Has" := 2]})))
    [CallConsumeGas 10 "Has"; CallConsumeGas 5 "ReadFlat"]
  = run (Basic (basicGasMeter.mk 20 2 true (Some {["Has" := 2]})))
      [CallConsumeGas 5 "ReadFlat"; CallConsumeGas 10 "Has"] /\
  snd (run (Basic (basicGasMeter.mk 20 2 true (Some {["Has" := 2]})))
         [CallConsumeGas 10 "Has"; CallConsumeGas 5 "ReadFlat"]) = None.
Proof.
  apply (ConsumeGas_commute
           (basicGasMeter.mk 20 2 true (Some {["Has" := 2]}))
           10 5 "Has" "ReadFlat");
    unfold basicGasMeter.wf, is_uint64, MaxUint64; cbn;
    [congruence | lia ..].
Defined.

(** ** A charge undone by a refund *)

Lemma report_get_add_sub
    (r : gmap string Z) (d d' : string) (amount : Z) :
  is_uint64 (report_get r d) ->
  report_get (report_sub (report_add r d amount) d amount) d'
  = report_get r d'.
Proof.
  intros Hd. destruct (decide (d = d')) as [<- | Hne].
  - rewrite report_get_sub, report_get_add, wrap64_sub_l.
    replace (report_get r d + amount - amount) with (report_get r d) by lia.
    apply wrap64_id. exact Hd.
  - rewrite report_get_sub_ne, report_get_add_ne by exact Hne. reflexivity.
Qed.

(** A charge that returns, followed by a refund of the same amount under
    the same descriptor, brings [consumed] back to where it was.  With
    tracking off the meter is the one before the charge; with tracking on,
    every reading of the report is as before, and the descriptor now has an
    entry in the map even if it had none. *)
Theorem ConsumeGas_RefundGas_round_trip
    (g : basicGasMeter.t) (amount : Z) (descriptor : string) :
  basicGasMeter.wf g ->
  is_uint64 (basicGasMeter.consumed g) ->
  is_uint64 amount ->
  basicGasMeter.consumed g + amount <= MaxUint64 ->
  basicGasMeter.consumed g + amount <= basicGasMeter.limit g ->
  (forall r, basicGasMeter.report g = Some r ->
             is_uint64 (report_get r descriptor)) ->
  exists g2,
    run (Basic g)
      [CallConsumeGas amount descriptor; CallRefundGas amount descriptor]
    = (Basic g2, None) /\
    basicGasMeter.limit g2 = basicGasMeter.limit g /\
    basicGasMeter.consumed g2 = basicGasMeter.consumed g /\
    (basicGasMeter.costBreakdownEnabled g = false -> g2 = g) /\
    (basicGasMeter.costBreakdownEnabled g = true ->
     forall r, basicGasMeter.report g = Some r ->
       exists r2,
         basicGasMeter.report g2 = Some r2 /\
         (forall d, report_get r2 d = report_get r d) /\
         r2 !! descriptor = Some (report_get r descriptor)).
Proof.
  intros Hwf Hc Ha Hfit Hlim Hentry. cbn.
  rewrite (ConsumeGas_returns_eq g amount descriptor Hwf Hc Ha Hfit Hlim).
  unfold lift. cbn.
  rewrite RefundGas_returns_eq; cbn;
    try assumption; try (unfold is_uint64 in *; lia).
  - eexists. split; [reflexivity |]. cbn.
    destruct g as [l k enabled r]; cbn in *.
    repeat split; try lia.
    + intros ->. f_equal. lia.
    + intros -> r0 ->. cbn. eexists. split; [reflexivity |]. split.
      * intros d. apply report_get_add_sub. apply Hentry. reflexivity.
      * unfold report_sub. rewrite lookup_insert_eq. f_equal.
        rewrite report_get_add, wrap64_sub_l.
        replace (report_get r0 descriptor + amount - amount)
          with (report_get r0 descriptor) by lia.
        apply wrap64_id. apply Hentry. reflexivity.
  - destruct g as [l k [] [r |]]; unfold basicGasMeter.wf in *; cbn in *;
      first [congruence | exact Hwf].
Qed.

Lemma ConsumeGas_RefundGas_round_trip_witness :
  exists g2,
    run (Basic (basicGasMeter.mk 10 4 true (Some ∅)))
      [CallConsumeGas 6 "Has"; CallRefundGas 6 "Has"]
    = (Basic g2, None) /\
    basicGasMeter.limit g2 = 10 /\
    basicGasMeter.consumed g2 = 4 /\
    (true = false -> g2 = basicGasMeter.mk 10 4 true (Some ∅)) /\
    (true = true ->
     forall r, Some (∅ : gmap string Z) = Some r ->
       exists r2,
         basicGasMeter.report g2 = Some r2 /\
         (forall d, report_get r2 d = report_get r d) /\
         r2 !! "Has" = Some (report_get r "Has")).
Proof.
  apply (ConsumeGas_RefundGas_round_trip
           (basicGasMeter.mk 10 4 true (Some ∅)) 6 "Has");
    unfold basicGasMeter.wf, is_uint64, MaxUint64; cbn;
    [congruence | lia | lia | lia | lia |].
  intros r [= <-]. vm_compute. split; congruence.
Defined.

(** ** The report of a unit of work *)

Lemma run_report_within (calls : list Call) :
  forall (l k : Z) (r : gmap string Z),
    is_uint64 k ->
    report_uint64 r ->
    within_limit l k calls ->
    exists (k' : Z) (r' : gmap string Z),
      run (Basic (basicGasMeter.mk l k true (Some r))) calls
      = (Basic (basicGasMeter.mk l k' true (Some r')), None) /\
      k' = k + charged calls - refunded calls /\
      forall d,
        report_get r' d
        = wrap64 (report_get r d
                  + charged_under d calls - refunded_under d calls).
Proof.
  induction calls as [| [amount d0 | amount d0] rest IH];
    intros l k r Hk Hr Hin.
  - exists k, r. cbn. repeat split; [lia |].
    intros d. rewrite Z.add_0_r, Z.sub_0_r. symmetry. apply wrap64_id, Hr.
  - cbn in Hin. destruct Hin as (Ha & Hfit & Hlim & Hrest).
    destruct (IH l (k + amount) (report_add r d0 amount))
      as (k' & r' & Hrun & Hk' & Hr').
    + unfold is_uint64 in *. lia.
    + apply report_add_uint64, Hr.
    + exact Hrest.
    + exists k', r'. cbn.
      rewrite ConsumeGas_returns_eq; cbn;
        try assumption; try (unfold basicGasMeter.wf; cbn; congruence).
      unfold lift. cbn. split; [exact Hrun |]. split; [lia |].
      intros d. rewrite Hr'. destruct (decide (d0 = d)) as [<- | Hne].
      * rewrite report_get_add.
        replace (wrap64 (report_get r d0 + amount) + charged_under d0 rest
                 - refunded_under d0 rest)
          with (wrap64 (report_get r d0 + amount)
                + (charged_under d0 rest - refunded_under d0 rest)) by lia.
        rewrite wrap64_add_l. f_equal; lia.
      * rewrite report_get_add_ne by exact Hne. f_equal; lia.
  - cbn in Hin. destruct Hin as (Ha & Hle & Hrest).
    destruct (IH l (k - amount) (report_sub r d0 amount))
      as (k' & r' & Hrun & Hk' & Hr').
    + unfold is_uint64 in *. lia.
    + apply report_sub_uint64, Hr.
    + exact Hrest.
    + exists k', r'. cbn.
      rewrite RefundGas_returns_eq; cbn;
        try assumption; try (unfold basicGasMeter.wf; cbn; congruence).
      unfold lift. cbn. split; [exact Hrun |]. split; [lia |].
      intros d. rewrite Hr'. destruct (decide (d0 = d)) as [<- | Hne].
      * rewrite report_get_sub.
        replace (wrap64 (report_get r d0 - amount) + charged_under d0 rest
                 - refunded_under d0 rest)
          with (wrap64 (report_get r d0 - amount)
                + (charged_under d0 rest - refunded_under d0 rest)) by lia.
        rewrite wrap64_add_l. f_equal; lia.
      * rewrite report_get_sub_ne by exact Hne. f_equal; lia.
Qed.

Lemma report_uint64_empty : report_uint64 ∅.
Proof.
  intros d. unfold report_get. rewrite lookup_empty. cbn.
  unfold is_uint64, MaxUint64. lia.
Qed.

(** On a meter built with breakdown tracking, after a sequence of calls
    that stays within the limit the report reads, for every descriptor,
    the amounts charged under it minus the amounts refunded under it,
    in [uint64] arithmetic. *)
Theorem run_report_per_descriptor (limit : Z) (calls : list Call) :
  within_limit limit 0 calls ->
  exists m' r',
    run (NewGasMeter limit true) calls = (m', None) /\
    Report m' = Some r' /\
    forall d,
      report_get r' d
      = wrap64 (charged_under d calls - refunded_under d calls).
Proof.
  intros Hin.
  destruct (run_report_within calls limit 0 ∅) as (k' & r' & Hrun & _ & Hr').
  - unfold is_uint64, MaxUint64. lia.
  - exact report_uint64_empty.
  - exact Hin.
  - eexists. exists r'. split; [exact Hrun |]. split; [reflexivity |].
    intros d. rewrite Hr'. unfold report_get at 1. rewrite lookup_empty.
    reflexivity.
Qed.

Lemma run_report_per_descriptor_witness :
  exists m' r',
    run (NewGasMeter 20 true)
      [CallConsumeGas 10 "ReadFlat"; CallConsumeGas 5 "WriteFlat";
       CallRefundGas 8 "WriteFlat"]
    = (m', None) /\
    Report m' = Some r' /\
    forall d,
      report_get r' d
      = wrap64 (charged_under d
                  [CallConsumeGas 10 "ReadFlat"; CallConsumeGas 5 "WriteFlat";
                   CallRefundGas 8 "WriteFlat"]
                - refunded_under d
                    [CallConsumeGas 10 "ReadFlat";
                     CallConsumeGas 5 "WriteFlat";
                     CallRefundGas 8 "WriteFlat"]).
Proof.
  apply (run_report_per_descriptor 20
           [CallConsumeGas 10 "ReadFlat"; CallConsumeGas 5 "WriteFlat";
            CallRefundGas 8 "WriteFlat"]).
  unfold within_limit, is_uint64, MaxUint64. lia.
Defined.

Lemma charges_only_refunded (calls : list Call) (d : string) :
  charges_only calls -> refunded calls = 0 /\ refunded_under d calls = 0.
Proof.
  induction 1 as [| [amount d0 | amount d0] rest Hc _ IH]; cbn.
  - split; reflexivity.
  - exact IH.
  - destruct Hc.
Qed.

Lemma charges_only_bounds (calls : list Call) (d : string) :
  forall (l k : Z),
    is_uint64 k ->
    within_limit l k calls ->
    charges_only calls ->
    0 <= charged_under d calls <= charged calls /\
    k + charged calls <= MaxUint64.
Proof.
  induction calls as [| [amount d0 | amount d0] rest IH];
    intros l k Hk Hin Honly; cbn.
  - unfold is_uint64 in *. lia.
  - cbn in Hin. destruct Hin as (Ha & Hfit & _ & Hrest).
    inversion Honly as [| ? ? _ Hrest_only]; subst.
    destruct (IH l (k + amount)) as [Hcu Hsum]; try assumption.
    + unfold is_uint64 in *. lia.
    + destruct (decide (d0 = d)); unfold is_uint64 in *; lia.
  - inversion Honly as [| ? ? Hc _]; subst. destruct Hc.
Qed.

(** On a meter built with breakdown tracking, after a sequence of charges
    that stays within the limit the report entry of every descriptor is
    exactly the sum of the amounts charged under it, and no entry is larger
    than [GasConsumed]. *)
Theorem run_report_charges_only (limit : Z) (calls : list Call) :
  within_limit limit 0 calls ->
  charges_only calls ->
  exists m' r',
    run (NewGasMeter limit true) calls = (m', None) /\
    Report m' = Some r' /\
    forall d,
      report_get r' d = charged_under d calls /\
      report_get r' d <= GasConsumed m'.
Proof.
  intros Hin Honly.
  assert (H0 : is_uint64 0) by (unfold is_uint64, MaxUint64; lia).
  destruct (run_report_within calls limit 0 ∅ H0 report_uint64_empty Hin)
    as (k' & r' & Hrun & Hk' & Hr').
  eexists. exists r'. split; [exact Hrun |]. split; [reflexivity |].
  intros d.
  destruct (charges_only_refunded calls d Honly) as [Href Hrefd].
  destruct (charges_only_bounds calls d limit 0 H0 Hin Honly) as [Hcu Hsum].
  assert (Hd : report_get r' d = charged_under d calls).
  { rewrite Hr'. unfold report_get at 1. rewrite lookup_empty. cbn.
    rewrite Hrefd, Z.sub_0_r. apply wrap64_id. unfold is_uint64. lia. }
  split; [exact Hd |]. rewrite Hd. cbn.
  unfold basicGasMeter.GasConsumed. cbn. lia.
Qed.

Lemma run_report_charges_only_witness :
  exists m' r',
    run (NewGasMeter 20 true)
      [CallConsumeGas 10 "ReadFlat"; CallConsumeGas 5 "ReadFlat";
       CallConsumeGas 4 "WriteFlat"]
    = (m', None) /\
    Report m' = Some r' /\
    forall d,
      report_get r' d
      = charged_under d
          [CallConsumeGas 10 "ReadFlat"; CallConsumeGas 5 "ReadFlat";
           CallConsumeGas 4 "WriteFlat"] /\
      report_get r' d <= GasConsumed m'.
Proof.
  apply (run_report_charges_only 20
           [CallConsumeGas 10 "ReadFlat"; CallConsumeGas 5 "ReadFlat";
            CallConsumeGas 4 "WriteFlat"]).
  - unfold within_limit, is_uint64, MaxUint64. lia.
  - unfold charges_only. repeat constructor.
Defined.

(** ** The report adds up *)

Lemma report_total_insert_fresh (r : gmap string Z) (d : string) (v : Z) :
  r !! d = None -> report_total (<[d := v]> r) = v + report_total r.
Proof.
  intros Hd. unfold report_total.
  apply (map_fold_insert_L (fun _ v acc => v + acc)); [| exact Hd].
  intros; lia.
Qed.

Lemma report_total_delete (r : gmap string Z) (d : string) :
  report_total r = report_get r d + report_total (delete d r).
Proof.
  unfold report_get. destruct (r !! d) as [x |] eqn:Hd; cbn.
  - unfold report_total.
    apply (map_fold_delete_L (fun _ v acc => v + acc)); [| exact Hd].
    intros; lia.
  - rewrite delete_id by exact Hd. reflexivity.
Qed.

Lemma report_total_insert (r : gmap string Z) (d : string) (v : Z) :
  report_total (<[d := v]> r) = report_total r - report_get r d + v.
Proof.
  rewrite <- insert_delete_eq.
  rewrite report_total_insert_fresh by apply lookup_delete_eq.
  rewrite (report_total_delete r d). lia.
Qed.

Lemma report_total_nonneg (r : gmap string Z) :
  (forall d, 0 <= report_get r d) -> 0 <= report_total r.
Proof.
  induction r as [| d x r Hd IH] using map_ind; intros Hr.
  - unfold report_total. rewrite map_fold_empty. lia.
  - rewrite report_total_insert_fresh by exact Hd.
    assert (0 <= x).
    { specialize (Hr d). unfold report_get in Hr.
      rewrite lookup_insert_eq in Hr. exact Hr. }
    assert (0 <= report_total r); [| lia].
    apply IH. intros d'. destruct (decide (d = d')) as [<- | Hne].
    + unfold report_get. rewrite Hd. cbn. lia.
    + specialize (Hr d'). unfold report_get in *.
      rewrite lookup_insert_ne in Hr by exact Hne. exact Hr.
Qed.

Lemma report_get_le_total (r : gmap string Z) (d : string) :
  report_uint64 r -> report_get r d <= report_total r.
Proof.
  intros Hr. rewrite (report_total_delete r d).
  assert (0 <= report_total (delete d r)); [| lia].
  apply report_total_nonneg. intros d'. unfold report_get.
  destruct (decide (d = d')) as [<- | Hne].
  - rewrite lookup_delete_eq. cbn. lia.
  - rewrite lookup_delete_ne by exact Hne. apply (Hr d').
Qed.

Lemma run_report_total (calls : list Call) :
  forall (l k : Z) (r : gmap string Z),
    is_uint64 k ->
    report_uint64 r ->
    report_total r = k ->
    within_limit l k calls ->
    charges_only calls ->
    exists (k' : Z) (r' : gmap string Z),
      run (Basic (basicGasMeter.mk l k true (Some r))) calls
      = (Basic (basicGasMeter.mk l k' true (Some r')), None) /\
      report_total r' = k'.
Proof.
  induction calls as [| [amount d0 | amount d0] rest IH];
    intros l k r Hk Hr Htot Hin Honly.
  - exists k, r. split; [reflexivity | exact Htot].
  - cbn in Hin. destruct Hin as (Ha & Hfit & Hlim & Hrest).
    inversion Honly as [| ? ? _ Hrest_only]; subst.
    destruct (IH l (report_total r + amount) (report_add r d0 amount))
      as (k' & r' & Hrun & Hk'); try assumption.
    + unfold is_uint64 in *. lia.
    + apply report_add_uint64, Hr.
    + unfold report_add. rewrite report_total_insert.
      pose proof (report_get_le_total r d0 Hr).
      rewrite wrap64_id; [lia |].
      pose proof (Hr d0). unfold is_uint64 in *. lia.
    + exists k', r'. cbn.
      rewrite ConsumeGas_returns_eq; cbn;
        try assumption; try (unfold basicGasMeter.wf; cbn; congruence).
      unfold lift. cbn. split; [exact Hrun | exact Hk'].
  - inversion Honly as [| ? ? Hc _]; subst. destruct Hc.
Qed.

(** On a meter built with breakdown tracking, after a sequence of charges
    that stays within the limit the entries of the report add up to
    [GasConsumed]. *)
Theorem run_report_adds_up (limit : Z) (calls : list Call) :
  within_limit limit 0 calls ->
  charges_only calls ->
  exists m' r',
    run (NewGasMeter limit true) calls = (m', None) /\
    Report m' = Some r' /\
    report_total r' = GasConsumed m'.
Proof.
  intros Hin Honly.
  destruct (run_report_total calls limit 0 ∅) as (k' & r' & Hrun & Hk');
    try assumption.
  - unfold is_uint64, MaxUint64. lia.
  - exact report_uint64_empty.
  - unfold report_total. apply map_fold_empty.
  - eexists. exists r'. split; [exact Hrun |]. split; [reflexivity |].
    exact Hk'.
Qed.

Lemma run_report_adds_up_witness :
  exists m' r',
    run (NewGasMeter 20 true)
      [CallConsumeGas 10 "ReadFlat"; CallConsumeGas 5 "ReadFlat";
       CallConsumeGas 4 "WriteFlat"]
    = (m', None) /\
    Report m' = Some r' /\
    report_total r' = GasConsumed m'.
Proof.
  apply (run_report_adds_up 20
           [CallConsumeGas 10 "ReadFlat"; CallConsumeGas 5 "ReadFlat";
            CallConsumeGas 4 "WriteFlat"]).
  - unfold within_limit, is_uint64, MaxUint64. lia.
  - unfold charges_only. repeat constructor.
Defined.

(** ** String *)

Example basicGasMeter_String_example :
  basicGasMeter_String (basicGasMeter.mk 100 42 false None)
  = "BasicGasMeter:" +:+ newline +:+ "  limit: 100"
      +:+ newline +:+ "  consumed: 42".
Proof. reflexivity. Qed.

Lemma pretty_N_go_one_line (x : N) :
  forall s, one_line s -> one_line (pretty_N_go x s).
Proof.
  induction (N.lt_wf_0 x) as [x _ IH]; intros s Hs.
  assert (x = 0 \/ 0 < x)%N as [-> | Hpos] by lia.
  - rewrite pretty_N_go_0. exact Hs.
  - rewrite pretty_N_go_step by exact Hpos. apply IH.
    + apply N.div_lt; [exact Hpos | reflexivity].
    + split; [| exact Hs].
      unfold pretty_N_char. repeat case_match; discriminate.
Qed.

Lemma pretty_Z_one_line (z : Z) : one_line (pretty z).
Proof.
  assert (HN : forall n : N, one_line (pretty n)).
  { intros n. unfold pretty, pretty_N. case_decide.
    - cbn. split; [discriminate | exact I].
    - apply pretty_N_go_one_line. exact I. }
  destruct z as [| p | p]; unfold pretty, pretty_Z.
  - cbn. split; [discriminate | exact I].
  - apply HN.
  - cbn. split; [discriminate | apply HN].
Qed.

Lemma one_line_split (s1 s2 t1 t2 : string) :
  one_line s1 -> one_line s2 ->
  s1 +:+ String "010"%char t1 = s2 +:+ String "010"%char t2 ->
  s1 = s2 /\ t1 = t2.
Proof.
  revert s2. induction s1 as [| c1 s1 IH]; intros [| c2 s2]; simpl.
  - intros _ _ Heq. injection Heq as Heq. split; [reflexivity | exact Heq].
  - intros _ [Hc2 _] Heq. injection Heq as Hc _. congruence.
  - intros [Hc1 _] _ Heq. injection Heq as Hc _. congruence.
  - intros [_ H1] [_ H2] Heq. injection Heq as Hc Heq.
    destruct (IH s2 H1 H2 Heq) as [Hs Ht]. split; congruence.
Qed.

(** What [String] prints tells the meters apart: two meters with the same
    string are of the same kind and agree on [limit] and [consumed]. *)
Theorem GasMeter_String_inj (m1 m2 : GasMeter) :
  GasMeter_String m1 = GasMeter_String m2 ->
  match m1, m2 with
  | Basic g1, Basic g2 =>
      basicGasMeter.limit g1 = basicGasMeter.limit g2 /\
      basicGasMeter.consumed g1 = basicGasMeter.consumed g2
  | Infinite g1, Infinite g2 => g1 = g2
  | _, _ => False
  end.
Proof.
  destruct m1 as [[l1 k1 e1 r1] | [k1]], m2 as [[l2 k2 e2 r2] | [k2]];
    unfold GasMeter_String, basicGasMeter_String, infiniteGasMeter_String,
      newline; simpl; intros Heq; try discriminate.
  - injection Heq as Heq.
    apply (one_line_split (pretty l1) (pretty l2)) in Heq
      as [Hl Hk]; try apply pretty_Z_one_line.
    injection Hk as Hk.
    split; [exact (pretty_Z_inj _ _ Hl) | exact (pretty_Z_inj _ _ Hk)].
  - injection Heq as Heq. f_equal. exact (pretty_Z_inj _ _ Heq).
Qed.

Lemma GasMeter_String_inj_witness :
  basicGasMeter.limit (basicGasMeter.mk 100 42 true (Some ∅))
  = basicGasMeter.limit (basicGasMeter.mk 100 42 false None) /\
  basicGasMeter.consumed (basicGasMeter.mk 100 42 true (Some ∅))
  = basicGasMeter.consumed (basicGasMeter.mk 100 42 false None).
Proof.
  apply (GasMeter_String_inj
           (Basic (basicGasMeter.mk 100 42 true (Some ∅)))
           (Basic (basicGasMeter.mk 100 42 false None))).
  reflexivity.
Defined.
